(* ===== verification/_CoqProject ===== *)
-Q . S2P
Prelude.v
PyFloat.v
Rounding.v
PyNum.v
Coerce.v
Backend.v
Registry.v
Predict.v
