(* ===== verification/Prelude.v ===== *)
(** * Verification of the Stack Overflow job-satisfaction ensemble predictor

    The program ([src/predict.py], 73 lines, Python 2) predicts a job
    satisfaction score by averaging three pre-trained xgboost boosters,
    one per survey year, each reading the user's answers through its own
    feature table:

    - feature tables [FEATS_2015], [FEATS_2016], [FEATS_2017] (lines 6-27):
      dicts from a model-internal feature name to the canonical field name
      of the user's input;
    - the model registry [MODELS] (lines 29-37): three (booster, table)
      pairs loaded once; [NUM_MODELS] and [REQUIRED_KEYS] (lines 39-40)
      derived from it;
    - [clip] (lines 42-52): clamping, compared with Python's [<] and [>];
    - [predict_year] (lines 54-62): builds the feature vector with
      [float(user_in[...])], wraps it in an [xgb.DMatrix], copies the
      booster and runs [predict] on the copy;
    - [predict] (lines 64-73): the entry point: returns [-1] if a required
      key is missing, otherwise sums the per-year predictions with
      Python's [sum], divides by [NUM_MODELS] and clips into [0, 10].

    ** Files and what they model (in [_CoqProject] order)

    - [Prelude] (this file): Python exceptions [py_exc]; [result], a value
      or a raised exception; the state-and-exception monad [st] that
      threads the Python heap (an exception keeps the heap as it is when
      raised); stdpp monad instances for both, so code reads
      [x ← m; k]; [st_foldM] for Python's [sum]/[for]; generic lemmas on
      [mapM], [st_foldM] and binds; the hint databases [py] and [py_rw].
    - [PyFloat]: IEEE-754 numbers as the Standard Library's [spec_float]
      with SpecFloat's operations (axiom-free, computable).  Python floats
      are binary64 ([prec = 53], [emax = 1024]); xgboost's [DMatrix]
      stores C floats and [Booster.predict] returns numpy [float32]
      arrays, so the arithmetic of [predict] is binary32 ([prec = 24],
      [emax = 128]).  [SFcompare] is shown to be the lexicographic order
      of a key in [Z * Z * Z] away from NaN ([SFcompare_key]), from which
      the order laws follow by [lia] (tactic [key_order]); rounding never
      yields NaN.
    - [Rounding]: what SpecFloat's rounding does on an int: [iter_pos]
      of [shr_1] divides by a power of two and keeps the rounding bit,
      and the conversion of an int to binary64 is an infinity exactly
      from [2^1024 - 2^970] on ([f64_of_Z_inf]), the bound of
      [PyLong_AsDouble]'s [OverflowError].
    - [PyNum]: the Python values of [predict]: ints and one-element
      [float32] arrays ([pynum]), Python 2's [+], [/] (floor division on
      ints, [ZeroDivisionError] on [0]), [<], [>], and [clip] (lines
      42-52) exactly as written.
    - [Coerce]: [float()] of CPython 2.7 on the values of [user_in]
      (line 59): floats, ints ([OverflowError] past binary64), bools,
      [None] ([TypeError]) and byte strings ([PyFloat_FromString] with
      [_Py_dg_strtod]'s grammar and correct rounding through SpecFloat's
      own division core, [_Py_parse_inf_or_nan], [ValueError] otherwise).
    - [Backend]: [xgb.DMatrix] on a list (a one-row sparse matrix that
      drops zeros, entries cast to C float, xgboost's feature-name
      checks); the [Booster] type class ([copy], [predict] that may
      change the booster); the heap of booster objects with allocation,
      load and in-place store; a tree-ensemble instance [gbtree] with
      xgboost's feature-name caching, used by the concrete runs.
    - [Registry]: the three feature tables as written (lines 6-27),
      [MODELS] over heap locations, module initialisation [load_models]
      (lines 29-37), [NUM_MODELS], [REQUIRED_KEYS] (lines 39-40), and the
      registry invariant [registry_wf].
    - [Predict]: [predict_year] (lines 54-62) and [predict] (lines 64-73)
      over the heap, generic in the backend; the pure specification
      [year_spec] / [predict_spec] (spec section 4.4 over the registry's
      objects) and the refinement lemmas; the theorems about [predict];
      concrete runs on [gbtree] boosters.

    How the parts interact: [predict] reads [REQUIRED_KEYS] of the
    registry, then for each index of [MODELS] calls [predict_year], which
    reads the table, coerces each answer with [float()], builds a
    [DMatrix], allocates a copy of the registered booster and runs
    [predict] on the copy; [predict] adds the results with Python's [sum]
    in index order, divides by [NUM_MODELS] and calls [clip].

    ** What the theorems show (claims C1-C15)

    - [Predict]: refinement of the specification with the registry left
      unchanged (C1); the sentinel [-1] exactly on a missing key (C2); the
      output range [[0, 10]] for non-NaN results (C3); isolation and
      determinism of repeated calls (C4); a rejected value raises (C5);
      once the key check passes, every exception comes from [float()],
      [DMatrix] or the backend, never from the code's own lookups or
      division (C6); only the values of the required keys are read (C7);
      [MODELS[year]] raises [IndexError] exactly out of range (C8).
    - [PyNum]: [clip] on each branch (C9); a NaN passes through (C10).
    - [Coerce]: [float(str(z))] is [z] rounded for every int, and
      [float(z)] raises [OverflowError] exactly from [2^1024 - 2^970] on
      (C11); whitespace around a string is ignored (C12); strings that
      cannot start a literal raise [ValueError] (C13).
    - [Registry]: [DMatrix] never raises on the program's tables (C14);
      [load_models] establishes the registry invariant (C15).

    ** Bounds and fuel

    No definition runs on fuel except the printer [pos_digits] of
    Python's [str] on ints (used to state C11; it models no line of the
    program), whose fuel is the number
    of bits of the int, at least its number of decimal digits
    ([scan_pos_digits]).  The float parser recurses structurally on the
    string; [decimal_to_f64] short-cuts values of [10^309] and above to
    an infinity and values below [10^-325] to a zero, both of which are
    the correctly rounded results, so it computes only with numbers of
    the size of the input.

    ** Not modelled

    The xgboost inference engine (an interface here, [Booster], with a
    tree-ensemble instance for concrete runs), reading the model files
    (the deserialised boosters are arguments of [load_models]), unicode
    strings given to [float()], and the front-end that calls [predict].
    Python 2 dicts iterate in hash order; the tables keep the literal's
    order and every theorem about arbitrary tables covers any order.

    ** Plan for the next sittings

    - [Coerce]: the grammar theorem (a well-formed decimal literal
      parses to [decimal_to_f64] of its value), trailing-garbage errors,
      exactness of [float()] on ints below [2^53] (from [Rounding]).
    - [Backend]: the [gbtree] instance's predictions are bounded by its
      leaves; feature-name caching across copies.
    - [Predict]: order independence of the mean in exact
      arithmetic against the float32 computation.

    Each other file opens with a short comment saying what it holds. *)

From Stdlib Require Import ZArith.
From stdpp Require Export base list gmap strings.

Declare Scope py_scope.
Delimit Scope py_scope with py.

(** ** Python exceptions

    The exceptions the prediction path can raise, with the message Python
    attaches where the message distinguishes the cause.  [InferenceError]
    stands for whatever the inference backend raises. *)
Inductive py_exc :=
  | KeyError (k : string)
  | ValueError (msg : string)
  | TypeError (msg : string)
  | OverflowError (msg : string)
  | ZeroDivisionError
  | IndexError
  | InferenceError (msg : string).

#[export] Instance py_exc_eq_dec : EqDecision py_exc.
Proof. solve_decision. Defined.

(** ** Results: a value, or an exception propagating to the caller *)
Inductive result (A : Type) := Ok (a : A) | Err (e : py_exc).
Arguments Ok {A} a.
Arguments Err {A} e.

#[export] Instance result_ret : MRet result := @Ok.
#[export] Instance result_bind : MBind result :=
  fun A B f r => match r with Ok a => f a | Err e => Err e end.
#[export] Instance result_fmap : FMap result :=
  fun A B f r => match r with Ok a => Ok (f a) | Err e => Err e end.

Definition is_ok {A} (r : result A) : bool :=
  match r with Ok _ => true | Err _ => false end.

(** Raising from an [option]: Python's [d[k]] raises when [k] is absent. *)
Definition of_option {A} (e : py_exc) (o : option A) : result A :=
  match o with Some a => Ok a | None => Err e end.

(** ** The state-and-exception monad

    Python code runs against a heap of objects; an exception leaves the
    heap as it is when the exception is raised (nothing is rolled back). *)
Definition st (S A : Type) : Type := S -> S * result A.

#[export] Instance st_ret S : MRet (st S) := fun A a s => (s, Ok a).
#[export] Instance st_bind S : MBind (st S) :=
  fun A B f m s =>
    match m s with
    | (s', Ok a) => f a s'
    | (s', Err e) => (s', Err e)
    end.

Definition st_lift {S A} (r : result A) : st S A := fun s => (s, r).

(** Python's [sum(gen)] / a [for] loop folding an accumulator through
    effectful steps, first element first. *)
Fixpoint st_foldM {S A B} (f : B -> A -> st S B) (l : list A) (acc : B) : st S B :=
  match l with
  | [] => mret acc
  | x :: l' => acc' ← f acc x; st_foldM f l' acc'
  end.

Create HintDb py.
Create Rewrite HintDb py_rw.

(** ** Generic lemmas on results *)

Lemma bind_Ok {A B} (r : result A) (f : A -> result B) b :
  (r ≫= f) = Ok b <-> exists a, r = Ok a /\ f a = Ok b.
Proof.
  destruct r as [a|e]; simpl; split.
  - eauto.
  - intros (a' & [= ->] & H). exact H.
  - discriminate.
  - intros (? & ? & _). discriminate.
Qed.

Lemma bind_Err {A B} (r : result A) (f : A -> result B) e :
  (r ≫= f) = Err e <-> r = Err e \/ exists a, r = Ok a /\ f a = Err e.
Proof.
  destruct r as [a|e']; simpl; split.
  - eauto.
  - intros [[=] | (a' & [= ->] & H)]. exact H.
  - intros [= ->]. auto.
  - intros [[= ->] | (? & ? & _)]; [reflexivity | discriminate].
Qed.

Lemma of_option_Ok {A} e (o : option A) a : of_option e o = Ok a <-> o = Some a.
Proof. destruct o; simpl; split; congruence. Qed.

(** [mapM] succeeds exactly when every element succeeds, pointwise. *)
Lemma mapM_Ok {A B} (f : A -> result B) (l : list A) (l' : list B) :
  mapM f l = Ok l' <-> Forall2 (fun x y => f x = Ok y) l l'.
Proof.
  revert l'. induction l as [|x l IH]; intros l'; simpl.
  - split; [intros [= <-]; constructor | intros H; inversion H; reflexivity].
  - destruct (f x) as [y|e] eqn:Hx; simpl.
    + destruct (mapM f l) as [ys|e] eqn:Hl; simpl.
      * split.
        -- intros [= <-]. constructor; [exact Hx | apply IH; reflexivity].
        -- intros H. inversion H as [|? y' ? ys' Hy Hys]; subst.
           rewrite Hx in Hy. injection Hy as ->.
           apply IH in Hys. injection Hys as ->. reflexivity.
      * split; [discriminate|].
        intros H. inversion H as [|? y' ? ys' Hy Hys]; subst.
        apply IH in Hys. discriminate.
    + split; [discriminate|].
      intros H. inversion H as [|? y' ? ys' Hy Hys]; subst. congruence.
Qed.

Lemma mapM_Ok_length {A B} (f : A -> result B) l l' :
  mapM f l = Ok l' -> length l' = length l.
Proof. intros H%mapM_Ok. symmetry. eapply Forall2_length, H. Qed.

(** An error of [mapM] is the error of one of the elements. *)
Lemma mapM_Err {A B} (f : A -> result B) (l : list A) e :
  mapM f l = Err e -> exists x, x ∈ l /\ f x = Err e.
Proof.
  induction l as [|x l IH]; simpl; [discriminate|].
  destruct (f x) as [y|e'] eqn:Hx; simpl.
  - destruct (mapM f l) eqn:Hl; simpl; [discriminate|].
    intros [= ->]. destruct IH as (z & Hz & Hfz); [reflexivity|].
    exists z. split; [by apply elem_of_cons; right | exact Hfz].
  - intros [= ->]. exists x. split; [apply elem_of_cons; by left | exact Hx].
Qed.

(** One failing element makes the whole [mapM] fail. *)
Lemma mapM_not_Ok {A B} (f : A -> result B) (l : list A) x e :
  x ∈ l -> f x = Err e -> forall l', mapM f l <> Ok l'.
Proof.
  intros Hin Hx l' Hok. apply mapM_Ok in Hok.
  apply list_elem_of_lookup_1 in Hin as [i Hi].
  destruct (Forall2_lookup_l _ _ _ _ _ Hok Hi) as (y & _ & Hy). congruence.
Qed.

Lemma mapM_result_ext {A B} (f g : A -> result B) (l : list A) :
  (forall x, x ∈ l -> f x = g x) -> mapM f l = mapM g l.
Proof.
  induction l as [|x l IH]; intros Hfg; simpl; [done|].
  rewrite Hfg by (apply elem_of_cons; by left).
  rewrite IH; [done|]. intros y Hy. apply Hfg. apply elem_of_cons. by right.
Qed.

Lemma st_foldM_ext {S A B} (f g : B -> A -> st S B) (l : list A) (acc : B) (h : S) :
  (forall acc' x h', x ∈ l -> f acc' x h' = g acc' x h') ->
  st_foldM f l acc h = st_foldM g l acc h.
Proof.
  revert acc h. induction l as [|x l IH]; intros acc h Hfg; simpl; [done|].
  unfold mbind, st_bind. rewrite Hfg by (apply elem_of_cons; by left).
  destruct (g acc x h) as [h' [acc'|e]]; [|done].
  apply IH. intros acc'' y h'' Hy. apply Hfg. apply elem_of_cons. by right.
Qed.

Lemma forallb_false_exists {A} (f : A -> bool) (l : list A) :
  forallb f l = false <-> exists x, x ∈ l /\ f x = false.
Proof.
  induction l as [|x l IH]; simpl.
  - split; [discriminate|]. intros (? & Hx & _). by apply elem_of_nil in Hx.
  - rewrite andb_false_iff, IH. split.
    + intros [Hx | (y & Hy & Hfy)]; [exists x | exists y]; split; auto; by apply elem_of_cons; auto.
    + intros (y & [->|Hy]%elem_of_cons & Hfy); auto; eauto.
Qed.

#[export] Hint Resolve mapM_Ok_length : py.
