(* ===== verification/PyFloat.v ===== *)
(** * IEEE-754 numbers of the prediction path

    Python's [float] is IEEE binary64; xgboost's [DMatrix] stores its
    data as C [float] (binary32) and [Booster.predict] returns a numpy
    [float32] array, so [sum(...) / NUM_MODELS] in [predict] is binary32
    arithmetic.  Both formats are the Standard Library's [spec_float]
    with the operations of [SpecFloat] at the format's precision and
    maximal exponent; rounding is to nearest, ties to even, as in C and
    numpy.  The file proves the comparison laws [clip] relies on:
    antisymmetry of [SFcompare], its totality away from NaN, and the
    relation between Python's [<], [>] and [<=] on floats. *)

From Stdlib Require Import ZArith Floats.
From S2P Require Import Prelude.

Open Scope Z_scope.

(** ** Formats *)
Definition prec64 : Z := 53.
Definition emax64 : Z := 1024.
Definition prec32 : Z := 24.
Definition emax32 : Z := 128.

(** Python [float] values and numpy [float32] values (both [spec_float],
    told apart by the operations applied to them). *)
Abbreviation f64 := spec_float (only parsing).
Abbreviation f32 := spec_float (only parsing).

(** ** Operations *)

(** numpy [float32 + float32] and [float32 / float32]. *)
Definition f32_add : f32 -> f32 -> f32 := SFadd prec32 emax32.
Definition f32_div : f32 -> f32 -> f32 := SFdiv prec32 emax32.

(** An integer converted to a format, correctly rounded; it is exact
    below [2^prec]. *)
Definition f32_of_Z (z : Z) : f32 := binary_normalize prec32 emax32 z 0 false.
Definition f64_of_Z (z : Z) : f64 := binary_normalize prec64 emax64 z 0 false.

(** The C cast [(float) d] that [DMatrix] applies to each Python float:
    round to nearest even, overflow to an infinity, NaN and infinities
    kept. *)
Definition f64_to_f32 (x : f64) : f32 :=
  match x with
  | S754_finite s m e => binary_round prec32 emax32 s m e
  | _ => x
  end.

Definition isnan (x : spec_float) : bool :=
  match x with S754_nan => true | _ => false end.

(** Python's comparisons on floats: IEEE comparisons, false on NaN. *)
Definition f_lt (x y : spec_float) : bool := SFltb x y.
Definition f_le (x y : spec_float) : bool := SFleb x y.
Definition f_gt (x y : spec_float) : bool :=
  match SFcompare x y with Some Gt => true | _ => false end.

(** ** The order of [SFcompare]

    Away from NaN, [SFcompare] is the lexicographic comparison of a key
    in [Z * Z * Z]: the sign class first (negative infinity, negative
    finite, zero, positive finite, positive infinity), then the exponent
    and the mantissa, both negated for negative numbers.  Every law of
    the comparison below follows from this by [lia]. *)
Definition sf_key (x : spec_float) : Z * Z * Z :=
  match x with
  | S754_zero _ => (0, 0, 0)
  | S754_infinity s => (if s then -2 else 2, 0, 0)
  | S754_nan => (0, 0, 0)
  | S754_finite s m e =>
      if s then (-1, - e, - Zpos m) else (1, e, Zpos m)
  end.

Definition key_cmp (k1 k2 : Z * Z * Z) : comparison :=
  let '(a1, b1, c1) := k1 in
  let '(a2, b2, c2) := k2 in
  match Z.compare a1 a2 with
  | Eq => match Z.compare b1 b2 with Eq => Z.compare c1 c2 | r => r end
  | r => r
  end.

Definition key_lt (k1 k2 : Z * Z * Z) : Prop :=
  let '(a1, b1, c1) := k1 in
  let '(a2, b2, c2) := k2 in
  a1 < a2 \/ (a1 = a2 /\ b1 < b2) \/ (a1 = a2 /\ b1 = b2 /\ c1 < c2).

Lemma key_cmp_spec k1 k2 :
  CompareSpec (k1 = k2) (key_lt k1 k2) (key_lt k2 k1) (key_cmp k1 k2).
Proof.
  destruct k1 as [[a1 b1] c1], k2 as [[a2 b2] c2]; simpl.
  destruct (Z.compare_spec a1 a2); [subst|constructor; lia..].
  destruct (Z.compare_spec b1 b2); [subst|constructor; lia..].
  destruct (Z.compare_spec c1 c2); [subst; by constructor|constructor; lia..].
Qed.

Lemma SFcompare_key x y :
  isnan x = false -> isnan y = false ->
  SFcompare x y = Some (key_cmp (sf_key x) (sf_key y)).
Proof.
  destruct x as [sx|sx| |sx mx ex], y as [sy|sy| |sy my ey];
    try destruct sx; try destruct sy; intros Hx Hy; simpl in *;
    try discriminate; try reflexivity.
  rewrite Z.compare_opp, (Z.compare_antisym ey ex).
  destruct (ey ?= ex); reflexivity.
Qed.

(** ** Comparison laws *)


Lemma SFcompare_antisym x y :
  SFcompare y x = option_map CompOpp (SFcompare x y).
Proof.
  destruct x as [sx|sx| |sx mx ex], y as [sy|sy| |sy my ey];
    try destruct sx; try destruct sy; simpl; try reflexivity.
  all: pose proof (Pos.compare_cont_antisym mx my Eq) as Hm; simpl in Hm;
       rewrite (Z.compare_antisym ex ey), <- Hm;
       by destruct (Z.compare ex ey).
Qed.

Lemma SFcompare_nan x y :
  SFcompare x y = None <-> isnan x = true \/ isnan y = true.
Proof.
  destruct x as [sx|sx| |sx mx ex], y as [sy|sy| |sy my ey];
    try destruct sx; try destruct sy; simpl; intuition congruence.
Qed.

Lemma f_gt_lt x y : f_gt x y = f_lt y x.
Proof.
  unfold f_gt, f_lt, SFltb. rewrite (SFcompare_antisym y x).
  by destruct (SFcompare y x) as [[]|].
Qed.

(** Away from NaN, not below is at or above. *)
(** Python's [<] and [<=] on non-NaN floats are the key orders. *)
Lemma f_lt_key x y :
  isnan x = false -> isnan y = false ->
  f_lt x y = true <-> key_lt (sf_key x) (sf_key y).
Proof.
  intros Hx Hy. unfold f_lt, SFltb. rewrite SFcompare_key by done.
  destruct (key_cmp_spec (sf_key x) (sf_key y)) as [E|H|H];
    [rewrite E|..]; destruct (sf_key y) as [[a b] c]; try destruct (sf_key x) as [[a' b'] c'];
    simpl in *; simplify_eq; split; intros; try done; exfalso; lia.
Qed.

Lemma f_le_key x y :
  isnan x = false -> isnan y = false ->
  f_le x y = true <-> ~ key_lt (sf_key y) (sf_key x).
Proof.
  intros Hx Hy. unfold f_le, SFleb. rewrite SFcompare_key by done.
  destruct (key_cmp_spec (sf_key x) (sf_key y)) as [E|H|H];
    [rewrite E|..]; destruct (sf_key y) as [[a b] c]; try destruct (sf_key x) as [[a' b'] c'];
    simpl in *; simplify_eq; split; repeat intro; simpl in *; try done; try discriminate; exfalso; lia.
Qed.

(** Proves a goal on comparisons of non-NaN floats by translating every
    comparison to the keys and calling [lia]. *)
Ltac key_order :=
  repeat match goal with
  | H : f_lt _ _ = true |- _ => apply f_lt_key in H; [|done|done]
  | H : f_le _ _ = true |- _ => apply f_le_key in H; [|done|done]
  | |- f_lt _ _ = true => apply f_lt_key; [done|done|]
  | |- f_le _ _ = true => apply f_le_key; [done|done|]
  end;
  repeat match goal with H : context [sf_key _] |- _ => revert H end;
  repeat match goal with |- context [sf_key ?x] => destruct (sf_key x) as [[? ?] ?] end;
  simpl; intros; lia.

Lemma f_not_lt_le x y :
  isnan x = false -> isnan y = false -> f_lt x y = false -> f_le y x = true.
Proof.
  intros Hx Hy. unfold f_lt, f_le, SFltb, SFleb.
  rewrite (SFcompare_antisym x y).
  destruct (SFcompare x y) as [[]|] eqn:E; simpl; try done.
  apply SFcompare_nan in E. destruct E; congruence.
Qed.

Lemma f_not_gt_le x y :
  isnan x = false -> isnan y = false -> f_gt x y = false -> f_le x y = true.
Proof.
  intros Hx Hy. rewrite f_gt_lt. by apply f_not_lt_le.
Qed.

Lemma f_lt_le x y : f_lt x y = true -> f_le x y = true.
Proof. unfold f_lt, f_le, SFltb, SFleb. by destruct (SFcompare x y) as [[]|]. Qed.

Lemma f_lt_nan_l y : f_lt S754_nan y = false.
Proof. reflexivity. Qed.

Lemma f_gt_nan_l y : f_gt S754_nan y = false.
Proof. reflexivity. Qed.

#[export] Hint Resolve f_not_lt_le f_not_gt_le f_lt_le : py.
Lemma f_le_not_lt x y :
  isnan x = false -> isnan y = false -> f_le x y = true -> f_lt y x = false.
Proof.
  intros Hx Hy Hle. destruct (f_lt y x) eqn:E; [|done]. exfalso. key_order.
Qed.

Lemma f_lt_le_trans x y z :
  isnan x = false -> isnan y = false -> isnan z = false ->
  f_lt x y = true -> f_le y z = true -> f_lt x z = true.
Proof. intros. key_order. Qed.

Lemma f_le_trans x y z :
  isnan x = false -> isnan y = false -> isnan z = false ->
  f_le x y = true -> f_le y z = true -> f_le x z = true.
Proof. intros. key_order. Qed.

(** ** Rounding never produces NaN

    The rounding of SpecFloat shifts a non-negative mantissa right and
    rounds it up at most by one, so the mantissa stays non-negative and
    the result is a zero, a finite number or an infinity. *)
Lemma iter_pos_inv {A} (P : A -> Prop) (f : A -> A) :
  (forall a, P a -> P (f a)) -> forall n a, P a -> P (SpecFloat.iter_pos f n a).
Proof. intros Hf n. induction n; intros a Ha; simpl; auto. Qed.

Lemma shr_1_nonneg mrs : 0 <= shr_m mrs -> 0 <= shr_m (shr_1 mrs).
Proof.
  destruct mrs as [[|[p|p|]|p] r s]; simpl; lia.
Qed.

Lemma shr_fexp_nonneg prec emax m e l :
  0 <= m -> 0 <= shr_m (fst (shr_fexp prec emax m e l)).
Proof.
  intros Hm. unfold shr_fexp, shr.
  destruct (fexp prec emax (Zdigits2 m + e) - e); simpl;
    [| apply (iter_pos_inv (fun mrs => 0 <= shr_m mrs)); [apply shr_1_nonneg|] |];
    destruct l as [|[]]; simpl; lia.
Qed.

Lemma binary_round_aux_not_nan prec emax sx mx ex lx :
  0 <= mx -> isnan (binary_round_aux prec emax sx mx ex lx) = false.
Proof.
  intros Hm. unfold binary_round_aux.
  pose proof (shr_fexp_nonneg prec emax mx ex lx Hm) as H1.
  destruct (shr_fexp prec emax mx ex lx) as [mrs' e'] eqn:E1. simpl in H1.
  assert (H2 : 0 <= round_nearest_even (shr_m mrs') (loc_of_shr_record mrs')).
  { unfold round_nearest_even.
    destruct (loc_of_shr_record mrs') as [|[]]; try destruct (Z.even _); lia. }
  pose proof (shr_fexp_nonneg prec emax _ e' loc_Exact H2) as H3.
  destruct (shr_fexp prec emax _ e' loc_Exact) as [mrs'' e''] eqn:E2. simpl in H3.
  destruct (shr_m mrs''); [done| |lia]. by destruct (_ <=? _).
Qed.

Lemma binary_normalize_not_nan prec emax m e sz :
  isnan (binary_normalize prec emax m e sz) = false.
Proof.
  destruct m; simpl; [done|..]; unfold binary_round;
    destruct (shl_align _ _ _); apply binary_round_aux_not_nan; lia.
Qed.

Lemma f32_of_Z_not_nan z : isnan (f32_of_Z z) = false.
Proof. apply binary_normalize_not_nan. Qed.

Lemma f64_of_Z_not_nan z : isnan (f64_of_Z z) = false.
Proof. apply binary_normalize_not_nan. Qed.

#[export] Hint Resolve f32_of_Z_not_nan f64_of_Z_not_nan f_le_not_lt : py.
#[export] Hint Rewrite f_gt_lt f_lt_nan_l f_gt_nan_l : py_rw.
