(* ===== verification/Rounding.v ===== *)
(** * Rounding a Python int to binary64 ([float(int)], src/predict.py, line 59)

    CPython 2.7's [PyLong_AsDouble] rounds an int to the nearest
    binary64, ties to even, and raises [OverflowError] when the rounded
    value does not fit, that is when it would be [2^1024].  [f64_of_Z] is
    SpecFloat's [binary_normalize], which shifts the mantissa right
    ([shr_1], iterated by [iter_pos]), rounds ([round_nearest_even])
    and overflows to an infinity past the largest exponent.

    This file computes what that code does on ints: [iter_pos] is
    [Nat.iter]; [k] shifts divide by [2^k] and leave the last bit shifted
    out as the rounding bit; a mantissa of 53 bits is kept, a carry to
    [2^53] shifts once more.  The result, [f64_of_Z_inf]: an int rounds
    to an infinity exactly when its magnitude is at least
    [2^1024 - 2^970], the midpoint between the largest finite binary64
    [2^1024 - 2^971] and [2^1024]. *)

From Stdlib Require Import ZArith Floats.
From S2P Require Import Prelude PyFloat.

Open Scope Z_scope.

(** ** [iter_pos] and the right shift *)

Lemma iter_pos_nat {A} (f : A -> A) n a :
  SpecFloat.iter_pos f n a = Nat.iter (Pos.to_nat n) f a.
Proof.
  revert a. induction n as [n IH|n IH|]; intros a; cbn [SpecFloat.iter_pos].
  - rewrite Pos2Nat.inj_xI, !IH, <- Nat.iter_add, Nat.iter_succ_r. f_equal. lia.
  - rewrite Pos2Nat.inj_xO, !IH, <- Nat.iter_add. f_equal. lia.
  - reflexivity.
Qed.

Lemma shr_1_spec mrs :
  0 <= shr_m mrs ->
  shr_m (shr_1 mrs) = shr_m mrs / 2 /\ shr_r (shr_1 mrs) = Z.odd (shr_m mrs).
Proof.
  destruct mrs as [m r s]. cbn [shr_m]. intros Hm.
  destruct m as [|[p|p|]|p]; cbn [shr_1 shr_m shr_r]; [split; reflexivity| | |split; reflexivity|lia].
  - rewrite Pos2Z.inj_xI, Z.odd_add, Z.odd_mul. split; [|reflexivity].
    apply (Z.div_unique _ _ _ 1); lia.
  - rewrite Pos2Z.inj_xO, Z.odd_mul. split; [|reflexivity].
    apply (Z.div_unique _ _ _ 0); lia.
Qed.

Lemma shr_iter_spec k m r s :
  0 <= m -> (1 <= k)%nat ->
  shr_m (Nat.iter k shr_1 (Build_shr_record m r s)) = m / 2 ^ Z.of_nat k /\
  shr_r (Nat.iter k shr_1 (Build_shr_record m r s)) = Z.odd (m / 2 ^ Z.of_nat (k - 1)).
Proof.
  intros Hm Hk. induction k as [|k IH]; [lia|].
  destruct k as [|k].
  - change (Nat.iter 1 shr_1 ?x) with (shr_1 x).
    destruct (shr_1_spec (Build_shr_record m r s) Hm) as [-> ->]. cbn [shr_m].
    change (Z.of_nat (1 - 1)) with 0. change (Z.of_nat 1) with 1.
    rewrite Z.pow_0_r, Z.pow_1_r, Z.div_1_r. split; reflexivity.
  - destruct IH as [IH1 _]; [lia|].
    change (Nat.iter (S (S k)) shr_1 (Build_shr_record m r s))
      with (shr_1 (Nat.iter (S k) shr_1 (Build_shr_record m r s))).
    assert (H0 : 0 <= shr_m (Nat.iter (S k) shr_1 (Build_shr_record m r s)))
      by (rewrite IH1; apply Z.div_pos; lia).
    destruct (shr_1_spec _ H0) as [-> ->]. rewrite IH1.
    replace (S (S k) - 1)%nat with (S k) by lia.
    split; [|reflexivity]. rewrite Z.div_div by lia.
    f_equal. rewrite (Nat2Z.inj_succ (S k)), Z.pow_succ_r by lia. lia.
Qed.

(** ** Mantissas and their bit lengths *)

Lemma digits2_pos_log2 p : Zpos (digits2_pos p) = Z.log2 (Zpos p) + 1.
Proof.
  induction p as [p IH|p IH|]; simpl digits2_pos; [| |reflexivity];
    rewrite Pos2Z.inj_succ, IH;
    [rewrite Pos2Z.inj_xI, Z.log2_succ_double | rewrite Pos2Z.inj_xO, Z.log2_double]; lia.
Qed.

Lemma nat_iter_xO k p : Zpos (Nat.iter k xO p) = Zpos p * 2 ^ Z.of_nat k.
Proof.
  induction k as [|k IH]; [simpl; lia|].
  rewrite Nat2Z.inj_succ, Z.pow_succ_r by lia.
  change (Nat.iter (S k) xO p) with (xO (Nat.iter k xO p)).
  rewrite Pos2Z.inj_xO, IH. lia.
Qed.

Lemma pos_iter_xO p n : Zpos (Pos.iter xO p n) = Zpos p * 2 ^ Zpos n.
Proof.
  rewrite Pos2Nat.inj_iter.
  change (nat_rect _ p _ (Pos.to_nat n)) with (Nat.iter (Pos.to_nat n) xO p).
  by rewrite nat_iter_xO, positive_nat_Z.
Qed.

Lemma log2_bounds p : 2 ^ Z.log2 (Zpos p) <= Zpos p < 2 ^ (Z.log2 (Zpos p) + 1).
Proof. pose proof (Z.log2_spec (Zpos p)) as H. rewrite <- Z.add_1_r in H. apply H. lia. Qed.

Lemma log2_of_bounds m d : 0 <= d -> 2 ^ d <= m < 2 ^ (d + 1) -> Z.log2 m = d.
Proof. intros Hd Hm. apply Z.log2_unique; [lia|]. rewrite <- Z.add_1_r. lia. Qed.

(** No shift: a mantissa of 53 bits at an exponent in the normal range. *)
Lemma shr_fexp_53 q e :
  2 ^ 52 <= q < 2 ^ 53 -> -1021 <= e ->
  shr_fexp prec64 emax64 q e loc_Exact = (Build_shr_record q false false, e).
Proof.
  intros Hq He. unfold shr_fexp, shr, fexp, emin, Zdigits2, prec64, emax64.
  destruct q as [|p|p]; [lia| |lia]. rewrite digits2_pos_log2.
  rewrite (log2_of_bounds (Zpos p) 52) by lia.
  replace (Z.max (52 + 1 + e - 53) (3 - 1024 - 53) - e) with 0 by lia. reflexivity.
Qed.

(** A carry to [2^53]: one more shift. *)
Lemma shr_fexp_54 e :
  -1021 <= e ->
  shr_fexp prec64 emax64 (2 ^ 53) e loc_Exact = (Build_shr_record (2 ^ 52) false false, e + 1).
Proof.
  intros He. unfold shr_fexp. change (Zdigits2 (2 ^ 53)) with 54.
  unfold shr, fexp, emin, prec64, emax64.
  replace (Z.max (54 + e - 53) (3 - 1024 - 53) - e) with 1 by lia.
  reflexivity.
Qed.

(** ** The rounding step *)

(** Rounding to nearest even adds at most one, and only when the first
    bit shifted out is set; it adds one when that bit is set and the
    kept mantissa is odd. *)
Lemma rne_cases m r s :
  let q' := round_nearest_even m (loc_of_shr_record (Build_shr_record m r s)) in
  (r = false /\ q' = m) \/ (r = true /\ (q' = m \/ q' = m + 1) /\ (Z.odd m = true -> q' = m + 1)).
Proof.
  cbv zeta. destruct r, s; cbn [loc_of_shr_record round_nearest_even].
  - right. split; [done|]. split; [by right | done].
  - right. split; [done|]. rewrite <- Z.negb_odd.
    destruct (Z.odd m); simpl; split; (by left) || (by right) || done.
  - by left.
  - by left.
Qed.

(** A mantissa of 53 bits at a normal exponent is kept as it is;
    the exponent decides between a finite number and an infinity. *)
Lemma round_aux_53 sx m e :
  2 ^ 52 <= Zpos m < 2 ^ 53 -> -1021 <= e ->
  binary_round_aux prec64 emax64 sx (Zpos m) e loc_Exact =
  if e <=? 971 then S754_finite sx m e else S754_infinity sx.
Proof.
  intros Hm He. unfold binary_round_aux. rewrite shr_fexp_53 by done.
  cbn [shr_m loc_of_shr_record round_nearest_even]. rewrite shr_fexp_53 by done.
  reflexivity.
Qed.

(** More than 53 bits: the first shift, by [k] bits. *)
Lemma shr_fexp_big p k :
  (1 <= k)%nat -> 2 ^ (52 + Z.of_nat k) <= Zpos p < 2 ^ (53 + Z.of_nat k) ->
  shr_fexp prec64 emax64 (Zpos p) 0 loc_Exact =
  (Nat.iter k shr_1 (Build_shr_record (Zpos p) false false), Z.of_nat k).
Proof.
  intros Hk Hp. unfold shr_fexp, shr, fexp, emin, Zdigits2, prec64, emax64.
  rewrite digits2_pos_log2, (log2_of_bounds (Zpos p) (52 + Z.of_nat k)) by
    (try replace (52 + Z.of_nat k + 1) with (53 + Z.of_nat k) by lia; lia).
  replace (Z.max (52 + Z.of_nat k + 1 + 0 - 53) (3 - 1024 - 53) - 0) with (Zpos (Pos.of_nat k))
    by lia.
  rewrite iter_pos_nat, Nat2Pos.id by lia. f_equal. lia.
Qed.

(** The second step of [binary_round_aux]: a rounded mantissa of 53
    bits, or the carry [2^53], overflows when its exponent passes [971]. *)
Lemma stage2_inf sx q e :
  2 ^ 52 <= q <= 2 ^ 53 -> -1021 <= e ->
  (exists s,
     (let '(mrs'', e'') := shr_fexp prec64 emax64 q e loc_Exact in
      match shr_m mrs'' with
      | Z0 => S754_zero sx
      | Zpos m => if e'' <=? emax64 - prec64 then S754_finite sx m e'' else S754_infinity sx
      | Zneg _ => S754_nan
      end) = S754_infinity s) <->
  (if q =? 2 ^ 53 then 971 < e + 1 else 971 < e).
Proof.
  intros Hq He. destruct (Z.eqb_spec q (2 ^ 53)) as [->|Hne].
  - rewrite shr_fexp_54 by done. cbn [shr_m]. change (emax64 - prec64) with 971.
    change (2 ^ 52) with 4503599627370496.
    destruct (Z.leb_spec (e + 1) 971); split; intros Hx; try lia;
      [destruct Hx; discriminate | eauto].
  - rewrite shr_fexp_53 by lia. cbn [shr_m]. change (emax64 - prec64) with 971.
    destruct q as [|m|m]; [lia| |lia].
    destruct (Z.leb_spec e 971); split; intros Hx; try lia;
      [destruct Hx; discriminate | eauto].
Qed.

Lemma round_aux_big_inf sx p k :
  (1 <= k)%nat -> 2 ^ (52 + Z.of_nat k) <= Zpos p < 2 ^ (53 + Z.of_nat k) ->
  (exists s, binary_round_aux prec64 emax64 sx (Zpos p) 0 loc_Exact = S754_infinity s) <->
  (971 < Z.of_nat k \/
   (Z.of_nat k = 971 /\ Zpos p / 2 ^ Z.of_nat k = 2 ^ 53 - 1 /\
    Z.odd (Zpos p / 2 ^ Z.of_nat (k - 1)) = true)).
Proof.
  intros Hk Hp. unfold binary_round_aux. rewrite (shr_fexp_big p k) by done.
  destruct (shr_iter_spec k (Zpos p) false false) as [Hm Hr]; [lia|done|].
  destruct (Nat.iter k shr_1 _) as [q r s]. cbn [shr_m shr_r] in Hm, Hr |- *.
  assert (Hqb : 2 ^ 52 <= q < 2 ^ 53).
  { rewrite Hm. split.
    - apply Z.div_le_lower_bound; [lia|]. rewrite <- Z.pow_add_r by lia.
      replace (Z.of_nat k + 52) with (52 + Z.of_nat k) by lia. lia.
    - apply Z.div_lt_upper_bound; [lia|]. rewrite <- Z.pow_add_r by lia.
      replace (Z.of_nat k + 53) with (53 + Z.of_nat k) by lia. lia. }
  destruct (rne_cases q r s) as [[-> Hq']|[-> [Hq' Hodd]]];
    set (q' := round_nearest_even _ _) in *.
  - rewrite stage2_inf by lia. rewrite <- Hm.
    destruct (Z.eqb_spec q' (2 ^ 53)); [lia|]. split; [auto|].
    intros [H|(_ & _ & H)]; [done|]. rewrite <- Hr in H. discriminate.
  - rewrite stage2_inf by lia. rewrite <- Hm, <- Hr.
    destruct (Z.eqb_spec q' (2 ^ 53)) as [Heq|Hne].
    + split; [|lia]. intros Hk1.
      destruct (Z.eq_dec (Z.of_nat k) 971); [right | left; lia].
      split; [done|]. split; [|done]. destruct Hq'; lia.
    + split; [auto|]. intros [H|(_ & Hq & _)]; [done|].
      exfalso. subst q. destruct Hq' as [Hq'|Hq']; [|lia].
      assert (Ho : Z.odd (Zpos p / 2 ^ Z.of_nat k) = true) by (rewrite Hq; reflexivity).
      specialize (Hodd Ho). lia.
Qed.

(** ** The overflow threshold *)

(** The last bit before [2^1024]: a 1024-bit mantissa rounds up to
    [2^1024] exactly when its top 54 bits are all set. *)
Lemma top_bits_1024 p :
  2 ^ 1023 <= p < 2 ^ 1024 ->
  (p / 2 ^ 971 = 2 ^ 53 - 1 /\ Z.odd (p / 2 ^ 970) = true) <-> 2 ^ 1024 - 2 ^ 970 <= p.
Proof.
  intros Hp. set (t := p / 2 ^ 970).
  assert (Ht : p = 2 ^ 970 * t + p mod 2 ^ 970) by (apply Z.div_mod; lia).
  pose proof (Z.mod_pos_bound p (2 ^ 970) ltac:(lia)) as Hr.
  assert (Hu : p / 2 ^ 971 = t / 2).
  { unfold t. rewrite Z.div_div by lia. f_equal. }
  assert (Htu : t = 2 * (t / 2) + t mod 2) by (apply Z.div_mod; lia).
  pose proof (Z.mod_pos_bound t 2 ltac:(lia)) as Hb.
  rewrite Hu, <- Z.bit0_odd.
  pose proof (Z.bit0_mod t) as Hbit. destruct (Z.testbit t 0); simpl in Hbit; split.
  - intros [Hq _]. lia.
  - intros Hle. split; [lia | done].
  - intros [_ Hf]. discriminate.
  - intros Hle. lia.
Qed.

(** Rounding a positive integer to binary64 overflows exactly from
    [2^1024 - 2^970] on: below it the integer rounds to at most the
    largest finite binary64, [2^1024 - 2^971]. *)
Lemma binary_round_inf sx p :
  (exists s, binary_round prec64 emax64 sx p 0 = S754_infinity s) <->
  2 ^ 1024 - 2 ^ 970 <= Zpos p.
Proof.
  pose proof (log2_bounds p) as Hp. pose proof (Z.log2_nonneg (Zpos p)) as HL.
  set (L := Z.log2 (Zpos p)) in *.
  unfold binary_round. rewrite digits2_pos_log2. fold L.
  replace (fexp prec64 emax64 (L + 1 + 0)) with (L - 52)
    by (unfold fexp, emin, prec64, emax64; lia).
  unfold shl_align. destruct (Z.le_gt_cases L 52) as [Hs|Hb].
  - assert (Hsmall : Zpos p < 2 ^ 53).
    { apply (Z.lt_le_trans _ (2 ^ (L + 1))); [lia | apply Z.pow_le_mono_r; lia]. }
    assert (H52 : 2 ^ 52 = 2 ^ L * 2 ^ (52 - L)) by (rewrite <- Z.pow_add_r by lia; f_equal; lia).
    assert (H53 : 2 ^ 53 = 2 ^ (L + 1) * 2 ^ (52 - L))
      by (rewrite <- Z.pow_add_r by lia; f_equal; lia).
    pose proof (Z.pow_pos_nonneg 2 (52 - L) ltac:(lia) ltac:(lia)) as Hc.
    destruct (L - 52 - 0) as [|d|d] eqn:E; [|lia|].
    + rewrite round_aux_53 by (replace L with 52 in * by lia; lia). simpl.
      split; [intros [s Hs']; discriminate | lia].
    + rewrite round_aux_53.
      * destruct (Z.leb_spec (L - 52) 971); [|lia].
        split; [intros [s Hs']; discriminate | lia].
      * rewrite pos_iter_xO. replace (Zpos d) with (52 - L) by lia. nia.
      * lia.
  - destruct (L - 52 - 0) as [|d|d] eqn:E; [lia| |lia].
    set (k := Z.to_nat (L - 52)).
    assert (Hk : Z.of_nat k = L - 52) by (unfold k; lia).
    rewrite (round_aux_big_inf sx p k) by (rewrite ?Hk; try replace (52 + (L - 52)) with L by lia;
      try replace (53 + (L - 52)) with (L + 1) by lia; lia).
    rewrite Hk. destruct (Z.lt_total L 1023) as [Hlt|[Heq|Hgt]].
    + split; [intros [H|(H & _)]; lia|]. intros Hle. exfalso.
      assert (2 ^ (L + 1) <= 2 ^ 1023) by (apply Z.pow_le_mono_r; lia). lia.
    + assert (Hk1 : Z.of_nat (k - 1) = 970) by lia. rewrite Hk1, Heq.
      replace (1023 - 52) with 971 by lia. rewrite <- top_bits_1024 by (rewrite Heq in Hp; lia).
      split; [intros [H|(_ & H)]; [lia | done] | intros H; by right].
    + split; [intros _|intros _; left; lia].
      assert (2 ^ 1024 <= 2 ^ L) by (apply Z.pow_le_mono_r; lia). lia.
Qed.

(** [f64_of_Z]: an int is an infinity in binary64 exactly when its
    magnitude is at least [2^1024 - 2^970]. *)
Lemma f64_of_Z_inf z :
  (exists s, f64_of_Z z = S754_infinity s) <-> 2 ^ 1024 - 2 ^ 970 <= Z.abs z.
Proof.
  destruct z as [|p|p]; unfold f64_of_Z, binary_normalize.
  - split; [intros [s Hs]; discriminate | simpl; lia].
  - apply binary_round_inf.
  - apply binary_round_inf.
Qed.
