(* ===== verification/PyNum.v ===== *)
(** * Python numbers of [predict] and [clip] (src/predict.py, lines 42-52)

    The values [predict] computes with are Python ints ([0], the start of
    [sum]; [NUM_MODELS]; the bounds [0] and [10]; the sentinel [-1]) and
    the one-element numpy [float32] arrays that [Booster.predict]
    returns.  Python's operators on them are modelled as the interpreter
    and numpy evaluate them: int with int is exact (Python 2's [/] on
    ints is floor division and raises [ZeroDivisionError] on zero), and
    an int meeting a [float32] array is converted to [float32] (exactly,
    for the small ints of this program) before the IEEE operation.

    [clip] is defined exactly as the source's, over these numbers.  The
    theorems: its result lies between the bounds whenever its argument
    is not NaN; on each branch it returns the bound or the argument; and
    a NaN argument is returned unchanged. *)

From Stdlib Require Import ZArith Floats.
From S2P Require Import Prelude PyFloat.

Open Scope Z_scope.

(** ** Python numbers *)
Inductive pynum :=
  | PyInt (z : Z)
  | PyF32 (x : f32).

(** The IEEE view of a number, for mixed int/float operations. *)
Definition to_f32 (a : pynum) : f32 :=
  match a with PyInt z => f32_of_Z z | PyF32 x => x end.

Definition pynum_is_nan (a : pynum) : bool :=
  match a with PyInt _ => false | PyF32 x => isnan x end.

(** [a + b] *)
Definition py_add (a b : pynum) : pynum :=
  match a, b with
  | PyInt x, PyInt y => PyInt (x + y)
  | _, _ => PyF32 (f32_add (to_f32 a) (to_f32 b))
  end.

(** [a / b] in Python 2: floor division on ints, IEEE division as soon
    as a [float32] array is involved (division by zero gives an infinity
    or NaN there, with a warning and no exception). *)
Definition py_div (a b : pynum) : result pynum :=
  match a, b with
  | PyInt _, PyInt 0 => Err ZeroDivisionError
  | PyInt x, PyInt y => Ok (PyInt (x / y))
  | _, _ => Ok (PyF32 (f32_div (to_f32 a) (to_f32 b)))
  end.

(** [a < b], [a > b], [a <= b]. *)
Definition py_lt (a b : pynum) : bool :=
  match a, b with
  | PyInt x, PyInt y => Z.ltb x y
  | _, _ => f_lt (to_f32 a) (to_f32 b)
  end.

Definition py_gt (a b : pynum) : bool :=
  match a, b with
  | PyInt x, PyInt y => Z.gtb x y
  | _, _ => f_gt (to_f32 a) (to_f32 b)
  end.

Definition py_le (a b : pynum) : bool :=
  match a, b with
  | PyInt x, PyInt y => Z.leb x y
  | _, _ => f_le (to_f32 a) (to_f32 b)
  end.

(** ** [clip] (lines 42-52)

<<
def clip(num, low, high):
    if num < low:
        return low
    if num > high:
        return high
    return num
>> *)
Definition clip (num low high : pynum) : pynum :=
  if py_lt num low then low
  else if py_gt num high then high
  else num.

(** ** Lemmas *)

Lemma to_f32_not_nan a : pynum_is_nan a = false -> isnan (to_f32 a) = false.
Proof. destruct a; [intros; apply f32_of_Z_not_nan | exact id]. Qed.

#[export] Hint Resolve to_f32_not_nan : py.

(** Python's [<=] on non-NaN numbers, as seen through [to_f32] when a
    float is involved. *)
Lemma py_not_lt_le a b :
  pynum_is_nan a = false -> pynum_is_nan b = false ->
  py_lt a b = false -> py_le b a = true.
Proof.
  intros Ha Hb. destruct a as [x|x], b as [y|y]; simpl;
    [rewrite Z.ltb_ge, Z.leb_le; lia|..]; apply f_not_lt_le; auto with py.
Qed.

Lemma py_not_gt_le a b :
  pynum_is_nan a = false -> pynum_is_nan b = false ->
  py_gt a b = false -> py_le a b = true.
Proof.
  intros Ha Hb. destruct a as [x|x], b as [y|y]; simpl;
    [rewrite Z.gtb_ltb, Z.ltb_ge, Z.leb_le; lia|..]; apply f_not_gt_le; auto with py.
Qed.

Lemma py_le_not_lt a b :
  pynum_is_nan a = false -> pynum_is_nan b = false ->
  py_le a b = true -> py_lt b a = false.
Proof.
  intros Ha Hb. destruct a as [x|x], b as [y|y]; simpl;
    [rewrite Z.ltb_ge, Z.leb_le; lia|..]; apply f_le_not_lt; auto with py.
Qed.

Lemma py_le_not_gt a b :
  pynum_is_nan a = false -> pynum_is_nan b = false ->
  py_le a b = true -> py_gt a b = false.
Proof.
  intros Ha Hb. destruct a as [x|x], b as [y|y]; simpl;
    [rewrite Z.gtb_ltb, Z.ltb_ge, Z.leb_le; lia|..];
    rewrite f_gt_lt; apply f_le_not_lt; auto with py.
Qed.

Lemma py_le_refl a : pynum_is_nan a = false -> py_le a a = true.
Proof.
  intros Ha. destruct a as [x|x]; simpl; [apply Z.leb_le; lia|].
  apply f_le_key; [done|done|]. destruct (sf_key x) as [[? ?] ?]; simpl; lia.
Qed.

#[export] Hint Resolve py_not_lt_le py_not_gt_le py_le_not_lt py_le_not_gt py_le_refl : py.

(** For a [float32] argument, every comparison of [clip] is an IEEE
    comparison of [to_f32] values. *)
Lemma py_lt_f32 x b : py_lt (PyF32 x) b = f_lt x (to_f32 b).
Proof. by destruct b. Qed.

Lemma py_gt_f32 x b : py_gt (PyF32 x) b = f_gt x (to_f32 b).
Proof. by destruct b. Qed.

Lemma py_le_f32_l x b : py_le (PyF32 x) b = f_le x (to_f32 b).
Proof. by destruct b. Qed.

Lemma py_le_f32_r a x : py_le a (PyF32 x) = f_le (to_f32 a) x.
Proof. by destruct a. Qed.

#[export] Hint Rewrite py_lt_f32 py_gt_f32 py_le_f32_l py_le_f32_r : py_rw.

(** Above [hi] excludes below [lo] when [lo <= hi] in [float32]. *)
Lemma py_gt_not_lt x lo hi :
  isnan x = false -> pynum_is_nan lo = false -> pynum_is_nan hi = false ->
  f_le (to_f32 lo) (to_f32 hi) = true -> py_gt (PyF32 x) hi = true ->
  py_lt (PyF32 x) lo = false.
Proof.
  intros Hx Hlo Hhi Hle. rewrite py_gt_f32, py_lt_f32, f_gt_lt. intros Hgt.
  apply f_le_not_lt; auto with py.
  apply (f_le_trans _ (to_f32 hi)); auto using f_lt_le with py.
Qed.

(** ** Bounds of [clip]

    For a [float32] argument that is not NaN and bounds that Python finds
    ordered (as ints and as [float32] values), the result of [clip] lies
    between the bounds under Python's [<=]. *)
Lemma clip_bounds x lo hi :
  isnan x = false -> pynum_is_nan lo = false -> pynum_is_nan hi = false ->
  py_le lo hi = true -> f_le (to_f32 lo) (to_f32 hi) = true ->
  py_le lo (clip (PyF32 x) lo hi) = true /\ py_le (clip (PyF32 x) lo hi) hi = true.
Proof.
  intros Hx Hlo Hhi Hle Hlef. unfold clip.
  destruct (py_lt (PyF32 x) lo) eqn:Elt; [auto with py|].
  destruct (py_gt (PyF32 x) hi) eqn:Egt; [auto with py|].
  split; [apply py_not_lt_le | apply py_not_gt_le]; auto.
Qed.

(** C9: [clip] on each branch.  For a [float32] argument [x] that is not
    NaN and ordered bounds [lo <= hi]: if [x < lo] it returns [lo]; if
    [x > hi] it returns [hi]; if [lo <= x <= hi] it returns [x]
    unchanged. *)
Theorem clip_spec x lo hi :
  isnan x = false -> pynum_is_nan lo = false -> pynum_is_nan hi = false ->
  f_le (to_f32 lo) (to_f32 hi) = true ->
  (py_lt (PyF32 x) lo = true -> clip (PyF32 x) lo hi = lo) /\
  (py_gt (PyF32 x) hi = true -> clip (PyF32 x) lo hi = hi) /\
  (py_le lo (PyF32 x) = true -> py_le (PyF32 x) hi = true -> clip (PyF32 x) lo hi = PyF32 x).
Proof.
  intros Hx Hlo Hhi Hlef. unfold clip. split; [|split].
  - by intros ->.
  - intros Hgt. by rewrite (py_gt_not_lt x lo hi), Hgt.
  - intros Hl Hh. rewrite (py_le_not_lt lo (PyF32 x)), (py_le_not_gt (PyF32 x) hi); auto.
Qed.

(** The [float32] values of the spec's clipping examples. *)
Definition f32_7_3 : f32 := f64_to_f32 (Prim2SF 0x1.d333333333333p+2%float).

(** The spec's examples: a mean of [-5] gives [0], [15] gives [10], and
    [7.3] is returned unchanged. *)
Lemma clip_spec_witness :
  clip (PyF32 (f32_of_Z (-5))) (PyInt 0) (PyInt 10) = PyInt 0 /\
  clip (PyF32 (f32_of_Z 15)) (PyInt 0) (PyInt 10) = PyInt 10 /\
  clip (PyF32 f32_7_3) (PyInt 0) (PyInt 10) = PyF32 f32_7_3.
Proof.
  split; [|split].
  - apply (clip_spec (f32_of_Z (-5)) (PyInt 0) (PyInt 10)); vm_compute; reflexivity.
  - apply (clip_spec (f32_of_Z 15) (PyInt 0) (PyInt 10)); vm_compute; reflexivity.
  - apply (clip_spec f32_7_3 (PyInt 0) (PyInt 10)); vm_compute; reflexivity.
Defined.

(** C10: a NaN argument passes through [clip] unchanged, whatever the
    bounds: both comparisons are false on NaN.  The result is then not
    in [[0, 10]]. *)
Theorem clip_nan lo hi : clip (PyF32 S754_nan) lo hi = PyF32 S754_nan.
Proof. unfold clip. by rewrite py_lt_f32, py_gt_f32. Qed.
