(* ===== verification/Coerce.v ===== *)
(** * Python 2's [float()] on the values of [user_in] (src/predict.py, line 59)

    [predict_year] coerces every answer it reads with
    [float(user_in[...])].  The values of [user_in] are whatever the
    caller put in the dict: floats, ints (Python 2 [int] and [long] are
    both [Z] here), bools, [None] or byte strings.  [float()] on them is
    CPython 2.7's:

    - a float is returned as it is; an int is rounded to the nearest
      binary64, and one too large for binary64 raises [OverflowError]
      ([PyLong_AsDouble]); a bool is [0.0] or [1.0];
    - [None] raises [TypeError];
    - a string goes through [PyFloat_FromString]: leading whitespace is
      skipped, [_Py_dg_strtod] reads an optional sign, digits with an
      optional point and an optional exponent (at least one digit in
      the mantissa; an exponent without digits is not consumed), and
      rounds the decimal value correctly to binary64 (overflow gives an
      infinity, underflow a zero: no exception); if it reads nothing,
      [_Py_parse_inf_or_nan] tries ["inf"], ["infinity"], ["nan"]
      (any case, optional sign); trailing whitespace is skipped and
      anything left raises [ValueError].

    The correctly rounded conversion uses SpecFloat's own division core
    and rounding, as [SFdiv] does, on the exact decimal mantissa and a
    power of ten.  Unicode strings (another path in CPython) are not
    modelled.

    Theorems: [float(str(z))] is [z] rounded for every int [z], and
    [float(z)] raises [OverflowError] exactly from [2^1024 - 2^970] on
    (the threshold comes from [Rounding]); whitespace around a string
    does not change [float()]; a string that cannot start a literal
    raises [ValueError]. *)

From Stdlib Require Import ZArith Ascii String Floats.
From S2P Require Import Prelude PyFloat Rounding.

Open Scope Z_scope.

(** ** The values of [user_in] *)
Inductive pyvalue :=
  | VFloat (x : f64)
  | VInt (z : Z)
  | VBool (b : bool)
  | VStr (s : string)
  | VNone.

(** ** Characters *)

(** [Py_ISSPACE]: space, tab, newline, carriage return, vertical tab,
    form feed. *)
Definition is_space (c : ascii) : bool :=
  let n := nat_of_ascii c in
  (n =? 32)%nat || ((9 <=? n)%nat && (n <=? 13)%nat).

Definition is_digit (c : ascii) : bool :=
  let n := nat_of_ascii c in (48 <=? n)%nat && (n <=? 57)%nat.

Definition digit_val (c : ascii) : Z := Z.of_nat (nat_of_ascii c) - 48.

(** ASCII lower case, for the case-insensitive match of ["inf"] and
    ["nan"]. *)
Definition to_lower (c : ascii) : ascii :=
  let n := nat_of_ascii c in
  if (65 <=? n)%nat && (n <=? 90)%nat then ascii_of_nat (n + 32) else c.

Fixpoint lstrip (s : string) : string :=
  match s with
  | String c s' => if is_space c then lstrip s' else s
  | EmptyString => s
  end.

Fixpoint all_space (s : string) : bool :=
  match s with
  | String c s' => is_space c && all_space s'
  | EmptyString => true
  end.

(** ** [_Py_dg_strtod]: the decimal literal *)

(** Reads a run of digits: the value [10^k * acc + digits], the number
    [k] of digits read, and what follows. *)
Fixpoint scan_digits (s : string) (acc : Z) (k : nat) : Z * nat * string :=
  match s with
  | String c s' =>
      if is_digit c then scan_digits s' (10 * acc + digit_val c) (S k)
      else (acc, k, s)
  | EmptyString => (acc, k, s)
  end.

(** An optional sign: [true] for ['-']. *)
Definition parse_sign (s : string) : bool * string :=
  match s with
  | String "-" s' => (true, s')
  | String "+" s' => (false, s')
  | _ => (false, s)
  end.

(** [MAX_ABS_EXP] of Python's [dtoa.c]: an exponent of ten digits or
    more is replaced by it (the value then overflows or underflows). *)
Definition MAX_ABS_EXP : Z := 1100000000.

(** The exponent part: ['e'] or ['E'], an optional sign, digits.  With
    no digit after the sign the exponent is not consumed. *)
Definition parse_exponent (s : string) : Z * string :=
  match s with
  | String c r =>
      if (c =? "e")%char || (c =? "E")%char then
        let '(eneg, r1) := parse_sign r in
        let '(ev, en, r2) := scan_digits r1 0 0 in
        if (en =? 0)%nat then (0, s)
        else
          let e := if 1000000000 <=? ev then MAX_ABS_EXP else ev in
          (if eneg then - e else e, r2)
      else (0, s)
  | EmptyString => (0, s)
  end.

(** A decimal literal: its sign, its digits as one integer [m], the
    power of ten [e10] with value [m * 10^e10], and what follows; [None]
    when no digit is read (nothing is consumed then). *)
Definition parse_decimal (s : string) : option (bool * Z * Z * string) :=
  let '(neg, s1) := parse_sign s in
  let '(m1, n1, s2) := scan_digits s1 0 0 in
  let '(m, nfrac, s3) :=
    match s2 with
    | String "." r => scan_digits r m1 0
    | _ => (m1, 0%nat, s2)
    end in
  if ((n1 + nfrac) =? 0)%nat then None
  else
    let '(e, rest) := parse_exponent s3 in
    Some (neg, m, e - Z.of_nat nfrac, rest).

(** A bound on the number of decimal digits of a positive [m]:
    [m < 2^(log2 m + 1) <= 8^((log2 m + 3) / 3) < 10^((log2 m + 3) / 3)]. *)
Definition digits10_ub (m : Z) : Z := (Z.log2 m + 3) / 3.

(** [m * 10^e10] correctly rounded to binary64, with sign [neg].
    Values of [10^309] and more round to an infinity, values below
    [10^-325] (under half the least subnormal) to a zero; in between the
    exact quotient goes through SpecFloat's division core and rounding. *)
Definition decimal_to_f64 (neg : bool) (m e10 : Z) : f64 :=
  match m with
  | Zpos p =>
      if 0 <=? e10 then
        if 309 <=? e10 then S754_infinity neg
        else binary_round prec64 emax64 neg (Z.to_pos (m * 10 ^ e10)) 0
      else if digits10_ub m + e10 <? -324 then S754_zero neg
      else
        let '(q, e', loc) :=
          SFdiv_core_binary prec64 emax64 m 0 (10 ^ (- e10)) 0 in
        binary_round_aux prec64 emax64 neg q e' loc
  | _ => S754_zero neg
  end.

(** ** [_Py_parse_inf_or_nan] *)

Fixpoint prefix_ci (p s : string) : option string :=
  match p, s with
  | EmptyString, _ => Some s
  | String a p', String b s' =>
      if (to_lower b =? a)%char then prefix_ci p' s' else None
  | _, _ => None
  end.

Definition parse_inf_or_nan (s : string) : option (f64 * string) :=
  let '(neg, s1) := parse_sign s in
  match prefix_ci "inf" s1 with
  | Some r =>
      match prefix_ci "inity" r with
      | Some r' => Some (S754_infinity neg, r')
      | None => Some (S754_infinity neg, r)
      end
  | None =>
      match prefix_ci "nan" s1 with
      | Some r => Some (S754_nan, r)
      | None => None
      end
  end.

(** ** [PyFloat_FromString] *)
Definition float_of_string (s : string) : result f64 :=
  let s1 := lstrip s in
  let parsed :=
    match parse_decimal s1 with
    | Some (neg, m, e10, rest) => Some (decimal_to_f64 neg m e10, rest)
    | None => parse_inf_or_nan s1
    end in
  match parsed with
  | None => Err (ValueError "could not convert string to float")
  | Some (x, rest) =>
      if all_space rest then Ok x
      else Err (ValueError "invalid literal for float()")
  end.

(** ** [float(v)] *)
Definition is_inf (x : f64) : bool :=
  match x with S754_infinity _ => true | _ => false end.

Definition py_float (v : pyvalue) : result f64 :=
  match v with
  | VFloat x => Ok x
  | VInt z =>
      let x := f64_of_Z z in
      if is_inf x then Err (OverflowError "long int too large to convert to float")
      else Ok x
  | VBool b => Ok (f64_of_Z (if b then 1 else 0))
  | VStr s => float_of_string s
  | VNone => Err (TypeError "float() argument must be a string or a number")
  end.

(** ** Python's [str] on ints

    Decimal digits, most significant first, with ['-'] for negatives.
    [pos_digits f n acc] prepends the digits of [n] to [acc], least
    significant first; [f] bounds the number of digits and the number
    of bits of [n] is enough. *)
Definition digit_char (r : Z) : ascii := ascii_of_nat (48 + Z.to_nat r).

Fixpoint pos_digits (fuel : nat) (n : Z) (acc : string) : string :=
  match fuel with
  | O => acc
  | S f =>
      let acc' := String (digit_char (n mod 10)) acc in
      if n <? 10 then acc' else pos_digits f (n / 10) acc'
  end.

Definition py_str_int (z : Z) : string :=
  match z with
  | Z0 => "0"
  | Zpos p => pos_digits (Pos.size_nat p) (Zpos p) ""
  | Zneg p => String "-" (pos_digits (Pos.size_nat p) (Zpos p) "")
  end.

(** ** Lemmas on the scanner *)

Lemma digit_char_spec r :
  0 <= r < 10 -> is_digit (digit_char r) = true /\ digit_val (digit_char r) = r.
Proof.
  intros Hr. unfold is_digit, digit_val, digit_char.
  rewrite nat_ascii_embedding by lia. split; [apply andb_true_intro; split; apply Nat.leb_le|]; lia.
Qed.

Lemma scan_digits_cons_digit r s acc k :
  0 <= r < 10 ->
  scan_digits (String (digit_char r) s) acc k = scan_digits s (10 * acc + r) (S k).
Proof.
  intros Hr. destruct (digit_char_spec r Hr) as [H1 H2].
  change (scan_digits (String (digit_char r) s) acc k) with
    (if is_digit (digit_char r) then scan_digits s (10 * acc + digit_val (digit_char r)) (S k)
     else (acc, k, String (digit_char r) s)).
  by rewrite H1, H2.
Qed.

(** Scanning the printed digits of [n] in front of [acc] reads [n]. *)
Lemma scan_pos_digits f n acc a k :
  0 < n < 2 ^ Z.of_nat f ->
  exists d, (1 <= d)%nat /\
    scan_digits (pos_digits f n acc) a k = scan_digits acc (a * 10 ^ Z.of_nat d + n) (k + d).
Proof.
  revert n acc a k. induction f as [|f IH]; intros n acc a k Hn; [simpl in Hn; lia|].
  assert (Hr : 0 <= n mod 10 < 10) by (apply Z.mod_pos_bound; lia).
  simpl pos_digits. destruct (Z.ltb_spec n 10).
  - exists 1%nat. split; [lia|]. rewrite scan_digits_cons_digit by done.
    rewrite Z.mod_small by lia. f_equal; [f_equal; lia | lia].
  - destruct (IH (n / 10) (String (digit_char (n mod 10)) acc) a k) as (d & Hd & ->).
    { split; [apply Z.div_str_pos; lia|].
      rewrite Nat2Z.inj_succ, Z.pow_succ_r in Hn by lia.
      apply Z.div_lt_upper_bound; lia. }
    exists (S d). split; [lia|]. rewrite scan_digits_cons_digit by done.
    f_equal; [|lia]. rewrite Nat2Z.inj_succ, Z.pow_succ_r by lia.
    rewrite (Z.div_mod n 10) at 3 by lia. lia.
Qed.

Lemma pos_size_bound p : Zpos p < 2 ^ Z.of_nat (Pos.size_nat p).
Proof.
  induction p as [q IH|q IH|]; simpl Pos.size_nat; rewrite ?Nat2Z.inj_succ, ?Z.pow_succ_r by lia;
    [rewrite Pos2Z.inj_xI | rewrite Pos2Z.inj_xO |]; simpl; lia.
Qed.

Lemma pos_digits_head f n acc :
  (1 <= f)%nat -> exists r s, 0 <= r < 10 /\ pos_digits f n acc = String (digit_char r) s.
Proof.
  revert n acc. induction f as [|f IH]; intros n acc Hf; [lia|]. simpl.
  assert (Hr : 0 <= n mod 10 < 10) by (apply Z.mod_pos_bound; lia).
  destruct (n <? 10); [eauto|].
  destruct f as [|f]; [simpl; eauto|]. apply IH. lia.
Qed.

Lemma digit_not_space c : is_digit c = true -> is_space c = false.
Proof.
  unfold is_digit, is_space. intros [H1 H2]%andb_prop.
  apply Nat.leb_le in H1, H2. destruct (Nat.eqb_spec (nat_of_ascii c) 32); [lia|].
  destruct (Nat.leb_spec 9 (nat_of_ascii c)), (Nat.leb_spec (nat_of_ascii c) 13); simpl; lia.
Qed.

Lemma parse_sign_digit c s : is_digit c = true -> parse_sign (String c s) = (false, String c s).
Proof. destruct c as [[] [] [] [] [] [] [] []]; done. Qed.

(** The printed digits of a positive [n] parse back to [n], with no
    fraction, no exponent and nothing left over. *)
Lemma parse_decimal_pos_digits p :
  exists k, (1 <= k)%nat /\
    scan_digits (pos_digits (Pos.size_nat p) (Zpos p) "") 0 0 = (Zpos p, k, "").
Proof.
  destruct (scan_pos_digits (Pos.size_nat p) (Zpos p) "" 0 0) as (d & Hd & ->);
    [split; [lia | apply pos_size_bound]|].
  exists d. split; [done|]. reflexivity.
Qed.

Lemma size_nat_pos p : (1 <= Pos.size_nat p)%nat.
Proof. destruct p; simpl; lia. Qed.

Lemma decimal_to_f64_int neg p : decimal_to_f64 neg (Zpos p) 0 = binary_round prec64 emax64 neg p 0.
Proof. unfold decimal_to_f64. simpl. by rewrite Pos.mul_1_r. Qed.

(** The printed digits of [p], optionally after a sign, read as a float. *)
Lemma float_of_string_pos_digits (neg : bool) (p : positive) :
  float_of_string (let d := pos_digits (Pos.size_nat p) (Zpos p) "" in
                   if neg then String "-" d else d)
  = Ok (binary_round prec64 emax64 neg p 0).
Proof.
  destruct (pos_digits_head (Pos.size_nat p) (Zpos p) "") as (r & s & Hr & Hs);
    [apply size_nat_pos|].
  destruct (digit_char_spec r Hr) as [Hdig _].
  destruct (parse_decimal_pos_digits p) as (k & Hk & Hscan).
  unfold float_of_string, parse_decimal.
  destruct neg; cbv zeta; rewrite Hs; cbn [lstrip].
  - replace (is_space "-") with false by reflexivity. cbn [parse_sign].
    rewrite <- Hs, Hscan. destruct k as [|k]; [lia|]. cbn -[decimal_to_f64].
    by rewrite decimal_to_f64_int.
  - rewrite digit_not_space by done. rewrite parse_sign_digit by done.
    rewrite <- Hs, Hscan. destruct k as [|k]; [lia|]. cbn -[decimal_to_f64].
    by rewrite decimal_to_f64_int.
Qed.

(** A binary64 is an infinity when it is [S754_infinity] of either sign. *)
Lemma is_inf_exists x : is_inf x = true <-> exists s, x = S754_infinity s.
Proof. split; [destruct x; simpl; try discriminate; eauto | by intros [s ->]]. Qed.

(** C11: [float()] on ints, through [str] and directly.  For every int
    [z], [float(str(z))] is [z] correctly rounded to binary64 (the
    printed digits parse back to [z], and the decimal literal is rounded
    as the int is).  [float(z)] returns the same float when [|z|] is
    below [2^1024 - 2^970], and raises [OverflowError] from that bound on,
    where the rounded value is an infinity that [float(str(z))] returns
    without complaint. *)
Theorem float_str_int z :
  py_float (VStr (py_str_int z)) = Ok (f64_of_Z z) /\
  (Z.abs z < 2 ^ 1024 - 2 ^ 970 -> py_float (VInt z) = Ok (f64_of_Z z)) /\
  (2 ^ 1024 - 2 ^ 970 <= Z.abs z ->
   py_float (VInt z) = Err (OverflowError "long int too large to convert to float") /\
   is_inf (f64_of_Z z) = true).
Proof.
  split; [|split].
  - destruct z as [|p|p]; [reflexivity| |].
    + apply (float_of_string_pos_digits false p).
    + apply (float_of_string_pos_digits true p).
  - intros Hz. unfold py_float. destruct (is_inf (f64_of_Z z)) eqn:Hi; [|done].
    apply is_inf_exists, f64_of_Z_inf in Hi. lia.
  - intros Hz. assert (Hi : is_inf (f64_of_Z z) = true) by (by apply is_inf_exists, f64_of_Z_inf).
    unfold py_float. by rewrite Hi.
Qed.

(** [float(-(2^1024))] raises, [float(2^1024 - 2^971)] (the largest
    finite binary64) and [float(str(-(2^1024)))] do not. *)
Lemma float_str_int_witness :
  py_float (VInt (- 2 ^ 1024)) = Err (OverflowError "long int too large to convert to float") /\
  py_float (VInt (2 ^ 1024 - 2 ^ 971)) = Ok (f64_of_Z (2 ^ 1024 - 2 ^ 971)) /\
  py_float (VStr (py_str_int (- 2 ^ 1024))) = Ok (f64_of_Z (- 2 ^ 1024)).
Proof.
  destruct (float_str_int (- 2 ^ 1024)) as (Hs & _ & Ho).
  destruct (float_str_int (2 ^ 1024 - 2 ^ 971)) as (_ & Hf & _).
  split; [apply Ho; lia|]. split; [apply Hf; lia | exact Hs].
Defined.

(** ** Surrounding whitespace

    [PyFloat_FromString] skips whitespace before the literal and after
    it.  The parsers read a prefix of their input and stop at a
    whitespace character, so whitespace appended to the input ends up
    appended to what they leave. *)

(** A string with no whitespace character. *)
Fixpoint all_space_free (s : string) : bool :=
  match s with
  | String c s' => negb (is_space c) && all_space_free s'
  | EmptyString => true
  end.

(** A string that is empty or starts with whitespace. *)
Definition space_led (t : string) : bool :=
  match t with EmptyString => true | String c _ => is_space c end.

Lemma all_space_led t : all_space t = true -> space_led t = true.
Proof. destruct t as [|c t]; simpl; [done|]. by intros [-> _]%andb_prop. Qed.

Lemma append_nil_l t : "" +:+ t = t.
Proof. reflexivity. Qed.

Lemma append_cons c s t : String c s +:+ t = String c (s +:+ t).
Proof. reflexivity. Qed.

(** Whitespace is not a digit, a sign, a point or an exponent mark, and
    [to_lower] leaves it alone. *)
Lemma space_char c :
  is_space c = true ->
  is_digit c = false /\ to_lower c = c /\ (c =? "e")%char = false /\ (c =? "E")%char = false.
Proof. destruct c as [[] [] [] [] [] [] [] []]; vm_compute; intros H; try discriminate; auto. Qed.

Lemma scan_digits_app s t acc k :
  space_led t = true ->
  scan_digits (s +:+ t) acc k = let '(a, n, r) := scan_digits s acc k in (a, n, r +:+ t).
Proof.
  intros Ht. revert acc k. induction s as [|c s IH]; intros acc k.
  - rewrite append_nil_l. destruct t as [|c t]; [reflexivity|].
    destruct (space_char c Ht) as (Hd & _). simpl. by rewrite Hd.
  - rewrite append_cons. simpl. destruct (is_digit c); [apply IH | reflexivity].
Qed.

Lemma parse_sign_app s t :
  space_led t = true -> parse_sign (s +:+ t) = let '(b, r) := parse_sign s in (b, r +:+ t).
Proof.
  intros Ht. destruct s as [|c s].
  - destruct t as [|c t]; [reflexivity|]. simpl in Ht.
    destruct c as [[] [] [] [] [] [] [] []]; try discriminate; reflexivity.
  - destruct c as [[] [] [] [] [] [] [] []]; reflexivity.
Qed.

Lemma parse_exponent_app s t :
  space_led t = true -> parse_exponent (s +:+ t) = let '(e, r) := parse_exponent s in (e, r +:+ t).
Proof.
  intros Ht. destruct s as [|c s].
  - destruct t as [|c t]; [reflexivity|]. destruct (space_char c Ht) as (_ & _ & He & HE).
    simpl. by rewrite He, HE.
  - rewrite append_cons. unfold parse_exponent.
    destruct ((c =? "e")%char || (c =? "E")%char); [|reflexivity].
    rewrite parse_sign_app by done. destruct (parse_sign s) as [eneg r1].
    rewrite scan_digits_app by done. destruct (scan_digits r1 0 0) as [[ev en] r2].
    by destruct (en =? 0)%nat.
Qed.

(** The point after the integer digits, or nothing. *)
Lemma parse_point_app s2 t m1 :
  space_led t = true ->
  match s2 +:+ t with
  | String "." r => scan_digits r m1 0
  | _ => (m1, 0%nat, s2 +:+ t)
  end =
  let '(m, nfrac, s3) := match s2 with
                         | String "." r => scan_digits r m1 0
                         | _ => (m1, 0%nat, s2)
                         end in (m, nfrac, s3 +:+ t).
Proof.
  intros Ht. destruct s2 as [|c r].
  - destruct t as [|c t]; [reflexivity|]. simpl in Ht.
    destruct c as [[] [] [] [] [] [] [] []]; try discriminate; reflexivity.
  - rewrite append_cons.
    destruct c as [[] [] [] [] [] [] [] []]; try reflexivity. by apply scan_digits_app.
Qed.

Lemma parse_decimal_app s t :
  space_led t = true ->
  parse_decimal (s +:+ t) =
  option_map (fun '(neg, m, e, r) => (neg, m, e, r +:+ t)) (parse_decimal s).
Proof.
  intros Ht. unfold parse_decimal.
  rewrite parse_sign_app by done. destruct (parse_sign s) as [neg s1].
  rewrite scan_digits_app by done. destruct (scan_digits s1 0 0) as [[m1 n1] s2].
  rewrite parse_point_app by done.
  destruct (match s2 with String "." r => _ | _ => _ end) as [[m nfrac] s3].
  destruct (n1 + nfrac =? 0)%nat; [reflexivity|].
  rewrite parse_exponent_app by done. by destruct (parse_exponent s3).
Qed.

(** A pattern without whitespace: ["inf"], ["inity"], ["nan"]. *)
Lemma prefix_ci_app p s t :
  all_space_free p = true -> space_led t = true ->
  prefix_ci p (s +:+ t) = option_map (fun r => r +:+ t) (prefix_ci p s).
Proof.
  intros Hp Ht. revert s. induction p as [|a p IH]; intros s; [reflexivity|].
  simpl in Hp. apply andb_prop in Hp as [Ha Hp].
  destruct s as [|b s].
  - destruct t as [|b t]; [reflexivity|]. destruct (space_char b Ht) as (_ & Hl & _).
    simpl. rewrite Hl. destruct (Ascii.eqb_spec b a); [subst; simpl in Ht; by rewrite Ht in Ha|reflexivity].
  - rewrite append_cons. simpl. destruct (to_lower b =? a)%char; [by apply IH | reflexivity].
Qed.

Lemma parse_inf_or_nan_app s t :
  space_led t = true ->
  parse_inf_or_nan (s +:+ t) = option_map (fun '(x, r) => (x, r +:+ t)) (parse_inf_or_nan s).
Proof.
  intros Ht. unfold parse_inf_or_nan.
  rewrite parse_sign_app by done. destruct (parse_sign s) as [neg s1].
  rewrite prefix_ci_app by done. destruct (prefix_ci "inf" s1) as [r|]; cbn [option_map].
  - rewrite prefix_ci_app by done. by destruct (prefix_ci "inity" r).
  - rewrite prefix_ci_app by done. by destruct (prefix_ci "nan" s1).
Qed.

Lemma all_space_app r t : all_space (r +:+ t) = all_space r && all_space t.
Proof. induction r as [|c r IH]; [reflexivity|]. simpl. rewrite IH. apply andb_assoc. Qed.

Lemma lstrip_app_l ws s : all_space ws = true -> lstrip (ws +:+ s) = lstrip s.
Proof.
  induction ws as [|c ws IH]; [done|]. simpl. intros [-> Hws]%andb_prop. by apply IH.
Qed.

Lemma lstrip_app_r s t :
  all_space t = true ->
  (lstrip s = "" /\ lstrip (s +:+ t) = "") \/ lstrip (s +:+ t) = lstrip s +:+ t.
Proof.
  intros Ht. induction s as [|c s IH].
  - left. split; [done|]. rewrite append_nil_l.
    induction t as [|c t IHt]; [done|]. simpl in Ht |- *. apply andb_prop in Ht as [-> Ht].
    by apply IHt.
  - rewrite append_cons. simpl. destruct (is_space c); [exact IH | by right].
Qed.

(** C12: [float()] ignores whitespace around a string: for any string
    [s] and any runs [ws1], [ws2] of [Py_ISSPACE] characters,
    [float(ws1 + s + ws2)] and [float(s)] return the same float or raise
    the same [ValueError]. *)
Theorem float_of_string_strip ws1 s ws2 :
  all_space ws1 = true -> all_space ws2 = true ->
  py_float (VStr (ws1 +:+ s +:+ ws2)) = py_float (VStr s).
Proof.
  intros H1 H2. unfold py_float, float_of_string. rewrite lstrip_app_l by done.
  destruct (lstrip_app_r s ws2 H2) as [[Hs Hst]|Hst]; rewrite Hst; [by rewrite Hs|].
  pose proof (all_space_led _ H2) as Hl.
  rewrite parse_decimal_app by done.
  destruct (parse_decimal (lstrip s)) as [[[[neg m] e] r]|]; cbn [option_map].
  - by rewrite all_space_app, H2, andb_true_r.
  - rewrite parse_inf_or_nan_app by done.
    destruct (parse_inf_or_nan (lstrip s)) as [[x r]|]; cbn [option_map]; [|done].
    by rewrite all_space_app, H2, andb_true_r.
Qed.

(** A tab and a space before ["7.3"], a newline after it. *)
Lemma float_of_string_strip_witness :
  py_float (VStr (String "009"%char " " +:+ "7.3" +:+ String "010"%char "")) =
  py_float (VStr "7.3").
Proof. apply float_of_string_strip; reflexivity. Defined.

(** C13: [float()] of a string whose first character after the leading
    whitespace is not a digit, a sign, a point or the first letter of
    ["inf"] or ["nan"] in any case (for instance ["abc"]) raises
    [ValueError("could not convert string to float")]. *)
Theorem py_float_invalid_start s c r :
  lstrip s = String c r -> is_digit c = false ->
  c <> "+"%char -> c <> "-"%char -> c <> "."%char ->
  to_lower c <> "i"%char -> to_lower c <> "n"%char ->
  py_float (VStr s) = Err (ValueError "could not convert string to float").
Proof.
  intros Hs Hd Hplus Hminus Hdot Hi Hn. unfold py_float, float_of_string. rewrite Hs.
  destruct c as [[] [] [] [] [] [] [] []]; vm_compute in Hd, Hi, Hn;
    try discriminate; try (exfalso; congruence); vm_compute; reflexivity.
Qed.

Lemma py_float_invalid_start_witness :
  lstrip "abc" = String "a" "bc" /\
  py_float (VStr "abc") = Err (ValueError "could not convert string to float").
Proof.
  split; [reflexivity|].
  apply (py_float_invalid_start "abc" "a" "bc"); vm_compute; try reflexivity; discriminate.
Defined.
