(* ===== verification/Backend.v ===== *)
(** * The inference backend: xgboost's [DMatrix] and [Booster], and the heap

    [predict_year] (src/predict.py, lines 60-62) calls three things of
    xgboost: [xgb.DMatrix(model_in, feature_names=feats)], [copy()] on
    the registered booster and [predict] on the copy.

    - [mk_dmatrix] is the [DMatrix] constructor on a Python list of
      floats: the list becomes a one-row [scipy.sparse.csr_matrix], which
      stores only the non-zero entries (a zero is a missing entry for
      xgboost), each stored as a C [float]; the feature names are checked
      as xgboost's [feature_names] setter checks them (unique, as many
      as columns, no ['['], [']'] or ['<']).
    - [Booster] is a type class: [booster_copy] is [Booster.copy()] and
      [booster_predict] is [Booster.predict] on a one-row matrix, which
      returns the booster as it is after the call (xgboost's predict
      records the feature names of the first matrix it sees) together
      with the prediction or the exception.  The prediction path is
      proved for every instance.
    - [heap] is the Python heap of booster objects: the registry holds
      references (locations); [call_copy] allocates a fresh object and
      [call_predict] runs a method on an object in place, so aliasing
      between the registry and the objects [predict] works on is
      explicit.
    - [gbtree] is an instance shaped like xgboost's tree booster (a base
      score plus the sum of the leaves the row reaches, feature-name
      caching on the first [predict], [copy] reloading the raw model,
      which drops the cached names); the witnesses of the prediction
      theorems run on it. *)

From Stdlib Require Import ZArith Ascii String Floats.
From S2P Require Import Prelude PyFloat.

Open Scope Z_scope.

(** ** [DMatrix] *)
Record dmatrix := {
  dm_row : list (option f32);
  dm_feature_names : list string;
}.

Definition is_zero (x : f64) : bool :=
  match x with S754_zero _ => true | _ => false end.

(** A stored entry of the sparse row: zeros are not stored. *)
Definition csr_entry (x : f64) : option f32 :=
  if is_zero x then None else Some (f64_to_f32 x).

Fixpoint has_forbidden_char (s : string) : bool :=
  match s with
  | String c s' =>
      (c =? "[")%char || (c =? "]")%char || (c =? "<")%char || has_forbidden_char s'
  | EmptyString => false
  end.

Definition mk_dmatrix (data : list f64) (names : list string) : result dmatrix :=
  if negb (bool_decide (NoDup names)) then
    Err (ValueError "feature_names must be unique")
  else if negb (length names =? length data)%nat then
    Err (ValueError "feature_names must have the same length as data")
  else if existsb has_forbidden_char names then
    Err (ValueError "feature_names may not contain [, ] or <")
  else Ok {| dm_row := map csr_entry data; dm_feature_names := names |}.

(** ** The booster interface *)
Class Booster (B : Type) := {
  booster_copy : B -> B;
  booster_predict : B -> dmatrix -> B * result f32;
}.

(** ** The heap of booster objects *)
Record heap (B : Type) := {
  hp_next : positive;
  hp_objs : gmap positive B;
}.
Arguments hp_next {B} h.
Arguments hp_objs {B} h.

Section Heap.
Context {B : Type}.

(** Every object lives below the next fresh location. *)
Definition heap_wf (h : heap B) : Prop :=
  forall l, is_Some (hp_objs h !! l) -> (l < hp_next h)%positive.

Definition heap_alloc (b : B) : st (heap B) positive :=
  fun h => ({| hp_next := Pos.succ (hp_next h); hp_objs := <[hp_next h := b]> (hp_objs h) |},
            Ok (hp_next h)).

(** Dereferencing a location that holds no object cannot happen in
    Python; it is reported as an inference failure. *)
Definition heap_load (l : positive) : st (heap B) B :=
  fun h => (h, of_option (InferenceError "dangling reference") (hp_objs h !! l)).

Definition heap_store (l : positive) (b : B) : st (heap B) unit :=
  fun h => ({| hp_next := hp_next h; hp_objs := <[l := b]> (hp_objs h) |}, Ok tt).

Context `{Booster B}.

(** [obj.copy()]: a new object. *)
Definition call_copy (l : positive) : st (heap B) positive :=
  b ← heap_load l; heap_alloc (booster_copy b).

(** [obj.predict(dm)]: runs on the object in place. *)
Definition call_predict (l : positive) (dm : dmatrix) : st (heap B) f32 :=
  b ← heap_load l;
  let '(b', r) := booster_predict b dm in
  _ ← heap_store l b'; st_lift r.
End Heap.

(** ** A tree-ensemble booster *)

(** A regression tree: a split sends the row left when the feature is
    below the threshold, and a missing feature the default way. *)
Inductive tree :=
  | Leaf (v : f32)
  | Split (feature : nat) (threshold : f32) (default_left : bool) (left right : tree).

Fixpoint tree_eval (row : list (option f32)) (t : tree) : f32 :=
  match t with
  | Leaf v => v
  | Split i thr dl l r =>
      match row !! i with
      | Some (Some x) => if f_lt x thr then tree_eval row l else tree_eval row r
      | _ => if dl then tree_eval row l else tree_eval row r
      end
  end.

Record gbtree := {
  gb_base : f32;
  gb_trees : list tree;
  gb_feature_names : option (list string);
}.

(** [Booster._validate_features]: the first matrix fixes the names. *)
Definition gb_validate (b : gbtree) (dm : dmatrix) : gbtree * result unit :=
  match gb_feature_names b with
  | None => ({| gb_base := gb_base b; gb_trees := gb_trees b;
                gb_feature_names := Some (dm_feature_names dm) |}, Ok tt)
  | Some names =>
      if decide (names = dm_feature_names dm) then (b, Ok tt)
      else (b, Err (ValueError "feature_names mismatch"))
  end.

#[export] Instance gbtree_booster : Booster gbtree := {
  booster_copy b := {| gb_base := gb_base b; gb_trees := gb_trees b;
                       gb_feature_names := None |};
  booster_predict b dm :=
    let '(b', ok) := gb_validate b dm in
    (b', _ ← ok;
         Ok (foldl f32_add (gb_base b) (map (tree_eval (dm_row dm)) (gb_trees b))));
}.

(** ** Lemmas on the heap *)
Section HeapLemmas.
Context {B : Type}.
Implicit Types (h : heap B) (b : B) (l : positive).

Lemma heap_wf_fresh h : heap_wf h -> hp_objs h !! hp_next h = None.
Proof.
  intros Hwf. destruct (hp_objs h !! hp_next h) eqn:E; [|done].
  exfalso. specialize (Hwf (hp_next h)). rewrite E in Hwf. pose proof (Hwf ltac:(eauto)). lia.
Qed.

(** A live object is not at the fresh location. *)
Lemma heap_wf_live_ne h l : heap_wf h -> is_Some (hp_objs h !! l) -> l <> hp_next h.
Proof. intros Hwf Hl ->. rewrite heap_wf_fresh in Hl by done. by destruct Hl. Qed.

Lemma heap_alloc_wf b h : heap_wf h -> heap_wf (heap_alloc b h).1.
Proof.
  intros Hwf l. simpl. rewrite lookup_insert. case_decide; [subst; lia|].
  intros Hl. specialize (Hwf l Hl). lia.
Qed.

Lemma heap_alloc_lookup_ne b h l :
  l <> hp_next h -> hp_objs (heap_alloc b h).1 !! l = hp_objs h !! l.
Proof. intros Hne. simpl. by rewrite lookup_insert_ne. Qed.

Lemma heap_store_wf l b h :
  heap_wf h -> (l < hp_next h)%positive -> heap_wf (heap_store l b h).1.
Proof.
  intros Hwf Hl l'. simpl. rewrite lookup_insert. case_decide; [subst; auto|]. apply Hwf.
Qed.

Lemma heap_store_lookup_ne l b h l' :
  l <> l' -> hp_objs (heap_store l b h).1 !! l' = hp_objs h !! l'.
Proof. intros Hne. simpl. by rewrite lookup_insert_ne. Qed.
End HeapLemmas.

#[export] Hint Resolve heap_alloc_wf heap_store_wf heap_wf_fresh : py.

