(* ===== verification/Registry.v ===== *)
(** * The model registry (src/predict.py, lines 6-40)

    The feature tables [FEATS_2015], [FEATS_2016], [FEATS_2017] are dicts
    from a model-internal feature name to the canonical field of the
    user's input; they are association lists here, in the order of the
    source literal ([.keys()] and [.values()] walk the same order; under
    CPython 2 that order is the dict's hash order, a permutation of the
    literal, and every theorem about an arbitrary table covers it).
    [MODELS] pairs each booster object (a heap location) with its table;
    [load_models] is the module's initialisation (lines 29-37), with the
    boosters deserialised from the model files given as arguments (file
    I/O is not modelled).  [NUM_MODELS] and [REQUIRED_KEYS] are lines
    39-40.

    Theorems: [DMatrix] construction never fails on the program's
    tables; [load_models] yields a registry of three distinct live
    objects. *)

From Stdlib Require Import ZArith String.
From S2P Require Import Prelude PyFloat Backend.

(** ** Feature tables *)
Definition feature_map := list (string * string).

(** [fm.keys()], [fm.values()], [fm[k]] *)
Definition fm_keys (fm : feature_map) : list string := map fst fm.
Definition fm_values (fm : feature_map) : list string := map snd fm.

Fixpoint fm_get (fm : feature_map) (k : string) : option string :=
  match fm with
  | [] => None
  | (k', v) :: fm' => if decide (k = k') then Some v else fm_get fm' k
  end.

Definition FEATS_2015 : feature_map := [
  ("Compensation", "salary");
  ("Purchasing Power_I have no say in purchasing what I need or want at work", "choose_equip");
  ("Remote Status_Never", "remote");
  ("Changed Jobs in last 12 Months", "curr_job_less_than_year")].

Definition FEATS_2016 : feature_map := [
  ("agree_loveboss", "like_boss");
  ("agree_tech", "job_technologies");
  ("open_to_new_job_I am actively looking for a new job", "look_postings_frequent");
  ("interview_likelihood", "interview")].

Definition FEATS_2017 : feature_map := [
  ("CareerSatisfaction", "like_developer");
  ("HoursPerWeek", "hours_per_week");
  ("Overpaid", "overpaid");
  ("LastNewJob_Less than a year ago", "curr_job_less_than_year");
  ("InfluenceWorkstation", "choose_equip");
  ("Salary", "salary")].

(** ** The registry *)

(** [MODELS]: (booster object, feature table) pairs, in year order. *)
Definition registry := list (positive * feature_map).

Definition NUM_MODELS (models : registry) : nat := length models.

(** [set(feat for model in MODELS for feat in model[1].values())] *)
Definition REQUIRED_KEYS (models : registry) : gset string :=
  list_to_set (concat (map (fun m => fm_values m.2) models)).

Definition registry_locs (models : registry) : list positive := map fst models.

(** Lines 33-37: [MODELS], given the three booster objects. *)
Definition MODELS (XGB_2015 XGB_2016 XGB_2017 : positive) : registry :=
  [(XGB_2015, FEATS_2015); (XGB_2016, FEATS_2016); (XGB_2017, FEATS_2017)].

(** Lines 29-37: [XGB_20xx = xgb.Booster(model_file=...)] allocates the
    three boosters, then [MODELS] pairs them with their tables. *)
Definition load_models {B} (b2015 b2016 b2017 : B) : st (heap B) registry :=
  x2015 ← heap_alloc b2015;
  x2016 ← heap_alloc b2016;
  x2017 ← heap_alloc b2017;
  mret (MODELS x2015 x2016 x2017).

(** The invariant of the registry: the heap is well formed and every
    booster of the registry is a live object. *)
Definition registry_wf {B} (models : registry) (h : heap B) : Prop :=
  heap_wf h /\ Forall (fun l => is_Some (hp_objs h !! l)) (registry_locs models).

(** ** Lemmas on tables *)

Lemma fm_get_elem fm k v : fm_get fm k = Some v -> (k, v) ∈ fm.
Proof.
  induction fm as [|[k' v'] fm IH]; simpl; [discriminate|].
  case_decide; [intros [= ->]; subst; left|intros; right; auto].
Qed.

Lemma fm_get_keys fm k : k ∈ fm_keys fm -> exists v, fm_get fm k = Some v.
Proof.
  induction fm as [|[k' v'] fm IH]; simpl; intros Hk; [set_solver|].
  case_decide; [eauto|]. apply IH. set_solver.
Qed.

Lemma elem_of_REQUIRED_KEYS models k :
  k ∈ REQUIRED_KEYS models <->
  exists l fm, (l, fm) ∈ models /\ k ∈ fm_values fm.
Proof.
  unfold REQUIRED_KEYS. rewrite elem_of_list_to_set, list_elem_of_In, in_concat.
  split.
  - intros (vs & Hvs & Hk). apply in_map_iff in Hvs as ([l fm] & <- & Hm).
    exists l, fm. split; [by apply list_elem_of_In | by apply list_elem_of_In].
  - intros (l & fm & Hm & Hk). exists (fm_values fm). split.
    + apply in_map_iff. exists (l, fm). split; [done | by apply list_elem_of_In].
    + by apply list_elem_of_In.
Qed.

(** The canonical field a table maps a feature to is a required key. *)
Lemma fm_get_REQUIRED_KEYS models l fm feat k :
  (l, fm) ∈ models -> fm_get fm feat = Some k -> k ∈ REQUIRED_KEYS models.
Proof.
  intros Hm Hk. apply elem_of_REQUIRED_KEYS. exists l, fm. split; [done|].
  apply fm_get_elem in Hk. apply list_elem_of_In, in_map_iff. exists (feat, k).
  split; [done | by apply list_elem_of_In].
Qed.

#[export] Hint Resolve fm_get_elem fm_get_keys : py.

(** ** Theorems *)

(** The canonical fields the program's tables ask for, as an input of
    the concrete runs of [Predict]. *)
Definition program_fields : list string :=
  ["salary"; "choose_equip"; "remote"; "curr_job_less_than_year";
   "like_boss"; "job_technologies"; "look_postings_frequent"; "interview";
   "like_developer"; "hours_per_week"; "overpaid"].

(** C14: [xgb.DMatrix] never raises on the program's tables: their
    feature names are distinct and contain no ['['], [']'] or ['<'], so
    a vector of the table's length always becomes a matrix. *)
Theorem feats_dmatrix_ok fm (data : list f64) :
  fm ∈ [FEATS_2015; FEATS_2016; FEATS_2017] -> length data = length fm ->
  mk_dmatrix data (fm_keys fm) =
  Ok {| dm_row := map csr_entry data; dm_feature_names := fm_keys fm |}.
Proof.
  intros Hfm Hlen. unfold mk_dmatrix.
  assert (Hk : length (fm_keys fm) = length data) by (unfold fm_keys; rewrite length_map; lia).
  rewrite Hk, Nat.eqb_refl.
  repeat (apply elem_of_cons in Hfm as [->|Hfm]; [vm_compute; reflexivity|]).
  by apply elem_of_nil in Hfm.
Qed.

Lemma feats_dmatrix_ok_witness :
  FEATS_2016 ∈ [FEATS_2015; FEATS_2016; FEATS_2017] /\
  mk_dmatrix [f64_of_Z 1; f64_of_Z 0; f64_of_Z 3; f64_of_Z 2] (fm_keys FEATS_2016) =
  Ok {| dm_row := map csr_entry [f64_of_Z 1; f64_of_Z 0; f64_of_Z 3; f64_of_Z 2];
        dm_feature_names := fm_keys FEATS_2016 |}.
Proof.
  split; [vm_compute; by right; left|].
  apply feats_dmatrix_ok; [vm_compute; by right; left | reflexivity].
Defined.

(** The heap [load_models] leaves: three allocations at the fresh
    locations [n], [n+1], [n+2]. *)
Lemma load_models_run {B} (b2015 b2016 b2017 : B) (h : heap B) :
  let n := hp_next h in
  load_models b2015 b2016 b2017 h =
  ((heap_alloc b2017 (heap_alloc b2016 (heap_alloc b2015 h).1).1).1,
   Ok (MODELS n (Pos.succ n) (Pos.succ (Pos.succ n)))).
Proof. reflexivity. Qed.

Lemma load_models_registry_wf {B} (b2015 b2016 b2017 : B) (h : heap B) :
  heap_wf h ->
  registry_wf (MODELS (hp_next h) (Pos.succ (hp_next h)) (Pos.succ (Pos.succ (hp_next h))))
              (load_models b2015 b2016 b2017 h).1.
Proof.
  intros Hwf. rewrite load_models_run. cbn [fst]. split; [by repeat apply heap_alloc_wf|].
  cbn [registry_locs MODELS map fst].
  repeat constructor; simpl; rewrite !lookup_insert; repeat case_decide; eauto; lia.
Qed.

(** C15: module initialisation.  From a well-formed heap, [load_models]
    allocates the three boosters at three distinct fresh locations,
    leaves every existing object untouched, and yields [MODELS] over
    them with the registry invariant established. *)
Theorem load_models_spec {B} (b2015 b2016 b2017 : B) (h : heap B) :
  heap_wf h ->
  exists x2015 x2016 x2017 h',
    load_models b2015 b2016 b2017 h = (h', Ok (MODELS x2015 x2016 x2017)) /\
    NoDup [x2015; x2016; x2017] /\
    registry_wf (MODELS x2015 x2016 x2017) h' /\
    hp_objs h' !! x2015 = Some b2015 /\ hp_objs h' !! x2016 = Some b2016 /\
    hp_objs h' !! x2017 = Some b2017 /\
    (forall l, is_Some (hp_objs h !! l) -> hp_objs h' !! l = hp_objs h !! l).
Proof.
  intros Hwf. set (n := hp_next h).
  pose proof (load_models_registry_wf b2015 b2016 b2017 h Hwf) as Hreg.
  rewrite load_models_run in Hreg |- *. simpl fst in Hreg.
  eexists n, (Pos.succ n), (Pos.succ (Pos.succ n)), _. split; [reflexivity|].
  split; [repeat constructor; set_solver by lia|]. split; [exact Hreg|].
  simpl. rewrite !lookup_insert. repeat (split; [repeat case_decide; try done; lia|]).
  intros l Hl. pose proof (Hwf l Hl). rewrite !lookup_insert_ne by lia. done.
Qed.

Lemma load_models_spec_witness :
  exists x2015 x2016 x2017 h',
    load_models 2015%Z 2016%Z 2017%Z {| hp_next := 1; hp_objs := (∅ : gmap positive Z) |} =
      (h', Ok (MODELS x2015 x2016 x2017)) /\
    NoDup [x2015; x2016; x2017] /\
    registry_wf (MODELS x2015 x2016 x2017) h' /\
    hp_objs h' !! x2015 = Some 2015%Z /\ hp_objs h' !! x2016 = Some 2016%Z /\
    hp_objs h' !! x2017 = Some 2017%Z /\
    (forall l, is_Some (hp_objs {| hp_next := 1; hp_objs := (∅ : gmap positive Z) |} !! l) ->
       hp_objs h' !! l = hp_objs {| hp_next := 1; hp_objs := (∅ : gmap positive Z) |} !! l).
Proof.
  apply load_models_spec. intros l [b Hb]. cbn [hp_objs] in Hb.
  by rewrite lookup_empty in Hb.
Defined.
