(* ===== verification/Predict.v ===== *)
(** * [predict_year] and [predict] (src/predict.py, lines 54-73)

    Both run against the heap: [predict_year] copies the registered
    booster ([call_copy]) and predicts on the copy ([call_predict]),
    which may change the copy and nothing else; [predict] checks the
    required keys, folds Python's [sum] over the years first to last,
    divides by [NUM_MODELS] and clips.  The whole file is generic in the
    backend (the [Booster] class).

    The abstract specification is pure: [year_spec] is one model's
    prediction computed from the registry's objects, and [predict_spec]
    is spec section 4.4 (sentinel if a key is missing, otherwise the
    clipped mean of the per-model predictions, first error first).  The
    refinement lemmas show that the heap-threading code computes
    [predict_spec] of the objects the registry holds when [predict]
    starts, and that it leaves those objects as they were.  The theorems
    about [predict] (sentinel, output range, determinism, error
    propagation and the provenance of its exceptions) are proved on the
    specification and carried over.  Two more are proved on the code
    directly: [predict] reads only the required keys of its input, and
    [predict_year] raises [IndexError] exactly out of range. *)

From Stdlib Require Import ZArith String Floats.
From S2P Require Import Prelude PyFloat PyNum Coerce Backend Registry.

Open Scope Z_scope.

Section Predict.
Context `{Booster B}.

(** ** The code *)

(** [float(user_in[MODELS[year][1][feat]])] for one feature. *)
Definition feature_value (user_in : gmap string pyvalue) (fm : feature_map)
    (feat : string) : result f64 :=
  canon ← of_option (KeyError feat) (fm_get fm feat);
  v ← of_option (KeyError canon) (user_in !! canon);
  py_float v.

(** Lines 54-62. *)
Definition predict_year (models : registry) (user_in : gmap string pyvalue)
    (year : nat) : st (heap B) pynum :=
  m ← st_lift (of_option IndexError (models !! year));
  let feats := fm_keys m.2 in
  model_in ← st_lift (mapM (feature_value user_in m.2) feats);
  dm ← st_lift (mk_dmatrix model_in feats);
  c ← call_copy m.1;
  p ← call_predict c dm;
  mret (PyF32 p).

(** [all(key in user_in for key in REQUIRED_KEYS)] *)
Definition has_all_keys (models : registry) (user_in : gmap string pyvalue) : bool :=
  forallb (fun key => bool_decide (is_Some (user_in !! key)))
          (elements (REQUIRED_KEYS models)).

(** One step of [sum]: [acc + predict_year(user_in, i)]. *)
Definition sum_step (models : registry) (user_in : gmap string pyvalue)
    (acc : pynum) (i : nat) : st (heap B) pynum :=
  p ← predict_year models user_in i; mret (py_add acc p).

(** Lines 64-73. *)
Definition predict (models : registry) (user_in : gmap string pyvalue) : st (heap B) pynum :=
  if negb (has_all_keys models user_in) then mret (PyInt (-1))
  else
    total ← st_foldM (sum_step models user_in) (seq 0 (NUM_MODELS models)) (PyInt 0);
    out ← st_lift (py_div total (PyInt (Z.of_nat (NUM_MODELS models))));
    mret (clip out (PyInt 0) (PyInt 10)).

(** ** The specification *)

(** One model's prediction, from the objects of the heap. *)
Definition year_spec (models : registry) (user_in : gmap string pyvalue)
    (objs : gmap positive B) (year : nat) : result pynum :=
  m ← of_option IndexError (models !! year);
  model_in ← mapM (feature_value user_in m.2) (fm_keys m.2);
  dm ← mk_dmatrix model_in (fm_keys m.2);
  b ← of_option (InferenceError "dangling reference") (objs !! m.1);
  p ← (booster_predict (booster_copy b) dm).2;
  Ok (PyF32 p).

(** Python's [sum] on a list: [0 + p0 + p1 + ...]. *)
Definition py_sum (ps : list pynum) : pynum := foldl py_add (PyInt 0) ps.

Definition predict_spec (models : registry) (user_in : gmap string pyvalue)
    (objs : gmap positive B) : result pynum :=
  if negb (has_all_keys models user_in) then Ok (PyInt (-1))
  else
    ps ← mapM (year_spec models user_in objs) (seq 0 (NUM_MODELS models));
    out ← py_div (py_sum ps) (PyInt (Z.of_nat (NUM_MODELS models)));
    Ok (clip out (PyInt 0) (PyInt 10)).

(** The registry's objects are the same in two heaps. *)
Definition registry_agree (models : registry) (h h' : heap B) : Prop :=
  Forall (fun l => hp_objs h' !! l = hp_objs h !! l) (registry_locs models).
End Predict.

(** ** Refinement *)
Section Refinement.
Context `{Booster B}.
Implicit Types (h : heap B) (models : registry) (user_in : gmap string pyvalue).

Lemma registry_agree_refl models h : registry_agree models h h.
Proof. by apply Forall_forall. Qed.

Lemma registry_agree_trans models h1 h2 h3 :
  registry_agree models h1 h2 -> registry_agree models h2 h3 -> registry_agree models h1 h3.
Proof.
  unfold registry_agree. rewrite !Forall_forall. intros H12 H23 l Hl.
  by rewrite H23, H12.
Qed.

(** The objects of the registry live below the fresh location. *)
Lemma registry_wf_lt models h l :
  registry_wf models h -> l ∈ registry_locs models -> (l < hp_next h)%positive.
Proof.
  intros [Hwf Hlive] Hl. apply Hwf. by eapply Forall_forall in Hlive.
Qed.

Lemma elem_of_registry_locs models i m : models !! i = Some m -> m.1 ∈ registry_locs models.
Proof.
  intros Hm. apply list_elem_of_In, in_map, list_elem_of_In. by eapply list_elem_of_lookup_2.
Qed.

(** Allocating a copy and running the copy's method in place keeps the
    registry invariant and the registry's objects. *)
Lemma copy_predict_frame models h b dm :
  registry_wf models h ->
  let h1 := (heap_alloc b h).1 in
  let '(b', r) := booster_predict b dm in
  registry_wf models (heap_store (hp_next h) b' h1).1 /\
  registry_agree models h (heap_store (hp_next h) b' h1).1.
Proof.
  intros Hreg. cbv zeta. destruct (booster_predict b dm) as [b' r].
  destruct Hreg as [Hwf Hlive]. split; [split|].
  - apply heap_store_wf; [by apply heap_alloc_wf | simpl; lia].
  - apply (Forall_impl _ _ _ Hlive). intros l Hl.
    pose proof (heap_wf_live_ne h l Hwf Hl). simpl. by rewrite !lookup_insert_ne.
  - apply (Forall_impl _ _ _ Hlive). intros l Hl.
    pose proof (heap_wf_live_ne h l Hwf Hl). simpl. by rewrite !lookup_insert_ne.
Qed.

Lemma year_spec_agree models user_in h h' i :
  registry_agree models h h' ->
  year_spec models user_in (hp_objs h') i = year_spec models user_in (hp_objs h) i.
Proof.
  intros Hag. unfold year_spec. destruct (models !! i) as [m|] eqn:Hm; simpl; [|done].
  destruct (mapM _ _); simpl; [|done]. destruct (mk_dmatrix _ _); simpl; [|done].
  unfold registry_agree in Hag. rewrite Forall_forall in Hag.
  by rewrite (Hag m.1) by (eapply elem_of_registry_locs; eauto).
Qed.

(** [predict_year] computes [year_spec] of the heap it starts from, and
    keeps the registry invariant and the registry's objects. *)
Lemma predict_year_refines models user_in i h :
  registry_wf models h ->
  let '(h', r) := predict_year models user_in i h in
  r = year_spec models user_in (hp_objs h) i /\
  registry_wf models h' /\ registry_agree models h h'.
Proof.
  intros Hreg. unfold predict_year, year_spec.
  cbv [mbind st_bind result_bind st_lift mret st_ret result_ret of_option].
  destruct (models !! i) as [[l fm]|] eqn:Hm; [|auto using registry_agree_refl].
  destruct (mapM _ _) as [model_in|e]; [|auto using registry_agree_refl].
  destruct (mk_dmatrix _ _) as [dm|e]; [|auto using registry_agree_refl].
  cbn [fst snd].
  assert (Hl : l ∈ registry_locs models) by exact (elem_of_registry_locs _ i (l, fm) Hm).
  destruct (proj1 (Forall_forall _ _) (proj2 Hreg) l Hl) as [b Hb].
  pose proof (copy_predict_frame models h (booster_copy b) dm Hreg) as Hf.
  unfold call_copy, call_predict, heap_load.
  cbv [mbind st_bind st_lift of_option]. rewrite Hb.
  cbn [heap_alloc hp_objs fst snd]. rewrite lookup_insert_eq.
  destruct (booster_predict (booster_copy b) dm) as [b' r]. cbn [snd].
  destruct Hf as [Hf1 Hf2].
  destruct r; cbn; auto.
Qed.
Lemma sum_loop_refines models user_in l acc h :
  registry_wf models h ->
  let '(h', r) := st_foldM (sum_step models user_in) l acc h in
  r = (ps ← mapM (year_spec models user_in (hp_objs h)) l; Ok (foldl py_add acc ps)) /\
  registry_wf models h' /\ registry_agree models h h'.
Proof.
  revert acc h. induction l as [|i l IH]; intros acc h Hreg.
  - simpl. auto using registry_agree_refl.
  - cbn [st_foldM]. unfold sum_step.
    pose proof (predict_year_refines models user_in i h Hreg) as Hy.
    cbv [mbind st_bind mret st_ret].
    destruct (predict_year models user_in i h) as [h1 [p|e]].
    + destruct Hy as (Hr & Hreg1 & Hag1).
      specialize (IH (py_add acc p) h1 Hreg1).
      destruct (st_foldM _ l _ h1) as [h2 r2]. destruct IH as (Hr2 & Hreg2 & Hag2).
      split; [|split; [done | eauto using registry_agree_trans]].
      rewrite Hr2, (mapM_result_ext (year_spec models user_in (hp_objs h1))
                      (year_spec models user_in (hp_objs h)))
        by (intros; by apply year_spec_agree).
      simpl. rewrite <- Hr. simpl. destruct (mapM (year_spec models user_in (hp_objs h)) l); reflexivity.
    + destruct Hy as (Hr & Hreg1 & Hag1). simpl. rewrite <- Hr. auto.
Qed.

(** [predict] computes [predict_spec] of the heap it starts from, and
    keeps the registry invariant and the registry's objects. *)
Lemma predict_refines models user_in h :
  registry_wf models h ->
  let '(h', r) := predict models user_in h in
  r = predict_spec models user_in (hp_objs h) /\
  registry_wf models h' /\ registry_agree models h h'.
Proof.
  intros Hreg. unfold predict, predict_spec.
  destruct (has_all_keys models user_in); simpl; [|auto using registry_agree_refl].
  cbv [mbind st_bind st_lift mret st_ret].
  pose proof (sum_loop_refines models user_in (seq 0 (NUM_MODELS models)) (PyInt 0) h Hreg)
    as Hl.
  destruct (st_foldM _ _ _ h) as [h1 r1]. destruct Hl as (-> & Hreg1 & Hag1).
  unfold py_sum. destruct (mapM _ _) as [ps|e]; simpl; [|auto].
  destruct (py_div _ _); simpl; auto.
Qed.
End Refinement.

(** ** Lemmas on the specification *)
Section SpecLemmas.
Context `{Booster B}.
Implicit Types (h : heap B) (models : registry) (user_in : gmap string pyvalue)
  (objs : gmap positive B).

Lemma has_all_keys_true models user_in :
  has_all_keys models user_in = true <->
  forall k, k ∈ REQUIRED_KEYS models -> is_Some (user_in !! k).
Proof.
  unfold has_all_keys. rewrite forallb_forall. split.
  - intros Hall k Hk.
    assert (Hin : In k (elements (REQUIRED_KEYS models)))
      by (apply list_elem_of_In; by apply elem_of_elements).
    exact (bool_decide_eq_true_1 _ (Hall k Hin)).
  - intros Hall k Hk. apply list_elem_of_In, elem_of_elements in Hk.
    by apply bool_decide_eq_true_2, Hall.
Qed.

Lemma has_all_keys_false models user_in :
  has_all_keys models user_in = false <->
  exists k, k ∈ REQUIRED_KEYS models /\ user_in !! k = None.
Proof.
  unfold has_all_keys. rewrite forallb_false_exists. split.
  - intros (k & Hk & Hb). apply elem_of_elements in Hk. apply bool_decide_eq_false_1 in Hb.
    exists k. split; [done|]. by apply eq_None_not_Some.
  - intros (k & Hk & Hn). exists k. split; [by apply elem_of_elements|].
    apply bool_decide_eq_false_2. rewrite Hn. apply is_Some_None.
Qed.

(** One model's prediction is a [float32] array. *)
Lemma year_spec_f32 models user_in objs i p :
  year_spec models user_in objs i = Ok p -> exists x, p = PyF32 x.
Proof.
  unfold year_spec. destruct (models !! i); simpl; [|discriminate].
  destruct (mapM _ _); simpl; [|discriminate]. destruct (mk_dmatrix _ _); simpl; [|discriminate].
  destruct (objs !! _); simpl; [|discriminate].
  destruct (booster_predict _ _).2; simpl; [|discriminate]. intros [= <-]. eauto.
Qed.

Lemma py_add_f32_r a y : exists x, py_add a (PyF32 y) = PyF32 x.
Proof. destruct a; simpl; eauto. Qed.

(** Python's [sum] of one or more [float32] arrays is a [float32] array. *)
Lemma foldl_py_add_f32 acc ps :
  ps <> [] -> Forall (fun p => exists x, p = PyF32 x) ps ->
  exists s, foldl py_add acc ps = PyF32 s.
Proof.
  revert acc. induction ps as [|p ps IH]; intros acc Hne Hall; [done|].
  inversion Hall as [|? ? [x ->] Hps]; subst. simpl.
  destruct ps as [|p' ps].
  - simpl. apply py_add_f32_r.
  - apply IH; [done | exact Hps].
Qed.

(** Python's [sum] of the predictions of a non-empty registry is a
    [float32] array. *)
Lemma year_specs_sum models user_in objs ps :
  NUM_MODELS models <> 0%nat ->
  mapM (year_spec models user_in objs) (seq 0 (NUM_MODELS models)) = Ok ps ->
  exists s, py_sum ps = PyF32 s.
Proof.
  intros Hn Hps.
  assert (Hall_f32 : Forall (fun p => exists x, p = PyF32 x) ps).
  { apply mapM_Ok in Hps. apply Forall_forall. intros p Hp.
    apply list_elem_of_lookup_1 in Hp as [j Hj].
    destruct (Forall2_lookup_r _ _ _ _ _ Hps Hj) as (i & _ & Hi).
    by eapply year_spec_f32. }
  assert (Hne : ps <> []).
  { intros ->. apply mapM_Ok_length in Hps. rewrite length_seq in Hps. simpl in Hps. lia. }
  exact (foldl_py_add_f32 (PyInt 0) ps Hne Hall_f32).
Qed.

(** With every key present, the specification's result is [clip] of a
    [float32] mean, or an exception. *)
Lemma predict_spec_complete models user_in objs r :
  has_all_keys models user_in = true -> predict_spec models user_in objs = Ok r ->
  exists x, r = clip (PyF32 x) (PyInt 0) (PyInt 10).
Proof.
  intros Hall. unfold predict_spec. rewrite Hall. simpl.
  destruct (mapM _ _) as [ps|e] eqn:Hps; simpl; [|discriminate].
  destruct (decide (NUM_MODELS models = 0%nat)) as [Hn|Hn].
  - rewrite Hn in Hps |- *. simpl in Hps. injection Hps as <-. discriminate.
  - destruct (year_specs_sum _ _ _ _ Hn Hps) as [s ->]. simpl. intros [= <-]. eauto.
Qed.

Lemma predict_spec_agree models user_in h h' :
  registry_agree models h h' ->
  predict_spec models user_in (hp_objs h') = predict_spec models user_in (hp_objs h).
Proof.
  intros Hag. unfold predict_spec.
  rewrite (mapM_result_ext (year_spec models user_in (hp_objs h'))
                           (year_spec models user_in (hp_objs h)));
    [done | intros; by apply year_spec_agree].
Qed.

Lemma clip_not_sentinel x : clip (PyF32 x) (PyInt 0) (PyInt 10) <> PyInt (-1).
Proof. unfold clip. by repeat case_match. Qed.

(** A dict's lookup of one of its keys finds that key's value. *)
Lemma fm_get_NoDup fm feat k :
  NoDup (fm_keys fm) -> (feat, k) ∈ fm -> fm_get fm feat = Some k.
Proof.
  induction fm as [|[f v] fm IH]; simpl; intros Hnd Hin; [by apply elem_of_nil in Hin|].
  apply NoDup_cons in Hnd as [Hf Hnd].
  apply elem_of_cons in Hin as [[= -> ->]|Hin]; case_decide; subst; try done.
  - exfalso. apply Hf. apply list_elem_of_In, in_map_iff. exists (f, k).
    split; [done|]. by apply list_elem_of_In.
  - by apply IH.
Qed.

(** A model of the registry is at an index [predict] iterates over. *)
Lemma registry_index models l fm :
  (l, fm) ∈ models -> exists i, models !! i = Some (l, fm) /\ i ∈ seq 0 (NUM_MODELS models).
Proof.
  intros Hin. apply list_elem_of_lookup_1 in Hin as [i Hi]. exists i. split; [done|].
  apply elem_of_seq. apply lookup_lt_Some in Hi. unfold NUM_MODELS. lia.
Qed.

(** Where an error of one model's prediction comes from: [float()] on a
    required value, the [DMatrix] constructor, or the backend's [predict]
    on a copy of a registered booster. *)
Definition error_source (models : registry) (user_in : gmap string pyvalue)
    (objs : gmap positive B) (e : py_exc) : Prop :=
  (exists k v, k ∈ REQUIRED_KEYS models /\ user_in !! k = Some v /\ py_float v = Err e) \/
  (exists data names, mk_dmatrix data names = Err e) \/
  (exists l fm b dm, (l, fm) ∈ models /\ objs !! l = Some b /\
                     (booster_predict (booster_copy b) dm).2 = Err e).

Lemma feature_value_error models user_in l fm feat e :
  (l, fm) ∈ models -> has_all_keys models user_in = true -> feat ∈ fm_keys fm ->
  feature_value user_in fm feat = Err e ->
  exists k v, k ∈ REQUIRED_KEYS models /\ user_in !! k = Some v /\ py_float v = Err e.
Proof.
  intros Hm Hall Hfeat. pose proof (proj1 (has_all_keys_true models user_in) Hall) as Hks.
  destruct (fm_get_keys fm feat Hfeat) as [k Hk].
  pose proof (fm_get_REQUIRED_KEYS models l fm feat k Hm Hk) as Hreq.
  destruct (Hks k Hreq) as [v Hv].
  unfold feature_value. rewrite Hk. simpl. rewrite Hv. simpl. eauto.
Qed.

Lemma year_spec_error models user_in h i e :
  registry_wf models h -> has_all_keys models user_in = true ->
  i ∈ seq 0 (NUM_MODELS models) -> year_spec models user_in (hp_objs h) i = Err e ->
  error_source models user_in (hp_objs h) e.
Proof.
  intros Hreg Hall Hi. apply elem_of_seq in Hi. unfold year_spec.
  destruct (models !! i) as [[l fm]|] eqn:Hm; simpl.
  2:{ exfalso. apply lookup_ge_None in Hm. unfold NUM_MODELS in Hi. lia. }
  assert (Hin : (l, fm) ∈ models) by (by eapply list_elem_of_lookup_2).
  destruct (mapM _ _) as [model_in|e'] eqn:Hmap; simpl.
  2:{ intros [= <-]. apply mapM_Err in Hmap as (feat & Hfeat & He). left.
      by eapply feature_value_error. }
  destruct (mk_dmatrix _ _) as [dm|e'] eqn:Hdm; simpl.
  2:{ intros [= <-]. right; left. eauto. }
  destruct (hp_objs h !! l) as [b|] eqn:Hb; simpl.
  2:{ exfalso. destruct Hreg as [_ Hlive]. rewrite Forall_forall in Hlive.
      destruct (Hlive l) as [? Hl]; [exact (elem_of_registry_locs _ i _ Hm)|]. congruence. }
  destruct (booster_predict (booster_copy b) dm).2 as [p|e'] eqn:Hp; simpl; [discriminate|].
  intros [= <-]. right; right. eauto 8.
Qed.
End SpecLemmas.

(** ** What [predict] reads of its input, and what it raises itself *)
Section Frame.
Context `{Booster B}.
Implicit Types (h : heap B) (models : registry) (user_in : gmap string pyvalue).

Section Agree.
Variables (models : registry) (user_in user_in' : gmap string pyvalue).
Hypothesis Hagree : forall k, k ∈ REQUIRED_KEYS models -> user_in !! k = user_in' !! k.

Lemma feature_value_frame l fm feat :
  (l, fm) ∈ models -> feature_value user_in fm feat = feature_value user_in' fm feat.
Proof.
  intros Hm. unfold feature_value. destruct (fm_get fm feat) as [k|] eqn:Hk; simpl; [|done].
  by rewrite (Hagree k) by exact (fm_get_REQUIRED_KEYS models l fm feat k Hm Hk).
Qed.

Lemma predict_year_frame i h :
  predict_year models user_in i h = predict_year models user_in' i h.
Proof.
  unfold predict_year. cbv [mbind st_bind st_lift of_option].
  destruct (models !! i) as [[l fm]|] eqn:Hm; [|done]. cbn [fst snd].
  rewrite (mapM_result_ext (feature_value user_in fm) (feature_value user_in' fm)); [done|].
  intros feat _. apply (feature_value_frame l). by eapply list_elem_of_lookup_2.
Qed.

Lemma has_all_keys_frame : has_all_keys models user_in = has_all_keys models user_in'.
Proof.
  destruct (has_all_keys models user_in) eqn:E1, (has_all_keys models user_in') eqn:E2;
    try done; exfalso.
  - destruct (proj1 (has_all_keys_false models user_in') E2) as (k & Hk & Hn).
    destruct (proj1 (has_all_keys_true models user_in) E1 k Hk) as [v Hv].
    by rewrite Hagree, Hn in Hv.
  - destruct (proj1 (has_all_keys_false models user_in) E1) as (k & Hk & Hn).
    destruct (proj1 (has_all_keys_true models user_in') E2 k Hk) as [v Hv].
    by rewrite <- Hagree, Hn in Hv.
Qed.
End Agree.

(** The code's own exceptions: [float()] raises [ValueError],
    [OverflowError] or [TypeError], the feature lookups [KeyError],
    [DMatrix] [ValueError]; none of them is an [IndexError]. *)
Lemma py_float_not_index v e : py_float v = Err e -> e <> IndexError.
Proof.
  unfold py_float, float_of_string.
  destruct v; repeat case_match; intros He; simplify_eq; discriminate.
Qed.

Lemma feature_value_not_index user_in fm feat e :
  feature_value user_in fm feat = Err e -> e <> IndexError.
Proof.
  unfold feature_value. destruct (fm_get fm feat); simpl; [|intros [= <-]; discriminate].
  destruct (user_in !! _); simpl; [apply py_float_not_index | intros [= <-]; discriminate].
Qed.

Lemma mk_dmatrix_not_index data names e : mk_dmatrix data names = Err e -> e <> IndexError.
Proof. unfold mk_dmatrix. repeat case_match; intros He; simplify_eq; discriminate. Qed.
End Frame.

(** ** Theorems about [predict] *)
Section PredictTheorems.
Context `{Booster B}.
Implicit Types (h : heap B) (models : registry) (user_in : gmap string pyvalue).

(** C1: refinement.  From a heap where the registry invariant holds,
    [predict] returns exactly the specification's answer for the
    objects the registry holds when it starts (the sentinel if a key
    is missing, otherwise the clipped mean of the per-model predictions
    or the first exception), keeps the invariant, and leaves every
    registered booster as it was. *)
Theorem predict_refinement models user_in h h' r :
  registry_wf models h -> predict models user_in h = (h', r) ->
  r = predict_spec models user_in (hp_objs h) /\
  registry_wf models h' /\ registry_agree models h h'.
Proof.
  intros Hreg E. pose proof (predict_refines models user_in h Hreg) as Hr.
  by rewrite E in Hr.
Qed.

(** C2: [predict] returns the sentinel [-1] exactly when a required
    key is missing from the input (a computed score is never [-1]). *)
Theorem predict_sentinel models user_in h :
  registry_wf models h ->
  (predict models user_in h).2 = Ok (PyInt (-1)) <->
  exists k, k ∈ REQUIRED_KEYS models /\ user_in !! k = None.
Proof.
  intros Hreg. pose proof (predict_refines models user_in h Hreg) as Hr.
  destruct (predict models user_in h) as [h' r]. destruct Hr as (-> & _). simpl.
  rewrite <- has_all_keys_false.
  destruct (has_all_keys models user_in) eqn:Hall.
  - split; [|discriminate]. intros Hspec.
    destruct (predict_spec_complete _ _ _ _ Hall Hspec) as [x Hx].
    exfalso. by apply (clip_not_sentinel x).
  - unfold predict_spec. rewrite Hall. done.
Qed.

(** C3: with every required key present, a result that is not NaN lies
    in [[0, 10]] under Python's comparisons. *)
Theorem predict_in_range models user_in h r :
  registry_wf models h ->
  (forall k, k ∈ REQUIRED_KEYS models -> is_Some (user_in !! k)) ->
  (predict models user_in h).2 = Ok r -> pynum_is_nan r = false ->
  py_le (PyInt 0) r = true /\ py_le r (PyInt 10) = true.
Proof.
  intros Hreg Hkeys Hr Hnan. apply has_all_keys_true in Hkeys.
  pose proof (predict_refines models user_in h Hreg) as Href.
  destruct (predict models user_in h) as [h' r']. destruct Href as (-> & _). simpl in Hr.
  destruct (predict_spec_complete _ _ _ _ Hkeys Hr) as [x ->].
  destruct (isnan x) eqn:Hx.
  - destruct x; try discriminate; vm_compute in Hnan; discriminate.
  - apply clip_bounds; auto; vm_compute; reflexivity.
Qed.

(** C4: isolation and determinism.  A call of [predict] keeps the
    registry invariant, leaves every registered booster unchanged
    (predictions run on copies), and a second call with the same input
    on the heap the first one left returns the same result. *)
Theorem predict_deterministic models user_in h h1 r1 :
  registry_wf models h -> predict models user_in h = (h1, r1) ->
  registry_wf models h1 /\ registry_agree models h h1 /\ (predict models user_in h1).2 = r1.
Proof.
  intros Hreg E. pose proof (predict_refines models user_in h Hreg) as Hr. rewrite E in Hr.
  destruct Hr as (-> & Hreg1 & Hag1). split; [done|]. split; [done|].
  pose proof (predict_refines models user_in h1 Hreg1) as Hr1.
  destruct (predict models user_in h1) as [h2 r2]. destruct Hr1 as (-> & _).
  by apply predict_spec_agree.
Qed.

(** C5: a required field whose value [float()] rejects makes [predict]
    raise (the error of the first failing step), never return a score
    or the sentinel, when every required key is present and every table
    has distinct feature names (as a dict has). *)
Theorem predict_coercion_error models user_in h k v e :
  registry_wf models h ->
  Forall (fun m => NoDup (fm_keys m.2)) models ->
  (forall k', k' ∈ REQUIRED_KEYS models -> is_Some (user_in !! k')) ->
  k ∈ REQUIRED_KEYS models -> user_in !! k = Some v -> py_float v = Err e ->
  exists e', (predict models user_in h).2 = Err e'.
Proof.
  intros Hreg Hnd Hkeys Hk Hv Hf. apply has_all_keys_true in Hkeys.
  pose proof (predict_refines models user_in h Hreg) as Href.
  destruct (predict models user_in h) as [h' r]. destruct Href as (-> & _). simpl.
  apply elem_of_REQUIRED_KEYS in Hk as (l & fm & Hm & Hkv).
  destruct (registry_index _ _ _ Hm) as (i & Hi & Hseq).
  apply list_elem_of_In, in_map_iff in Hkv as ([feat k'] & Hk' & Hfk). simpl in Hk'. subst k'.
  assert (Hget : fm_get fm feat = Some k).
  { apply fm_get_NoDup; [|by apply list_elem_of_In].
    rewrite Forall_forall in Hnd. exact (Hnd (l, fm) Hm). }
  assert (Hfeat : feature_value user_in fm feat = Err e).
  { unfold feature_value. rewrite Hget. simpl. rewrite Hv. exact Hf. }
  assert (Hin : feat ∈ fm_keys fm).
  { apply list_elem_of_In, in_map_iff. exists (feat, k). split; [done|exact Hfk]. }
  assert (Hyear : exists e'', year_spec models user_in (hp_objs h) i = Err e'').
  { unfold year_spec. rewrite Hi. simpl.
    destruct (mapM (feature_value user_in fm) (fm_keys fm)) as [xs|e''] eqn:Hmap; [|eauto].
    exfalso. exact (mapM_not_Ok _ _ feat e Hin Hfeat xs Hmap). }
  destruct Hyear as [e'' Hy].
  unfold predict_spec. rewrite Hkeys. simpl.
  destruct (mapM (year_spec models user_in (hp_objs h)) (seq 0 (NUM_MODELS models)))
    as [ps|e3] eqn:Hall; simpl; [|eauto].
  exfalso. exact (mapM_not_Ok _ _ i e'' Hseq Hy ps Hall).
Qed.

(** C6: provenance of exceptions.  Once the key check has passed and the
    registry is not empty, every exception [predict] raises comes from
    [float()] on a required value, from [xgb.DMatrix], or from the
    backend's [predict] on a copy of a registered booster: the code's own
    lookups and arithmetic ([KeyError], [IndexError],
    [ZeroDivisionError]) never raise. *)
Theorem predict_error_source models user_in h e :
  registry_wf models h -> models <> [] ->
  (forall k, k ∈ REQUIRED_KEYS models -> is_Some (user_in !! k)) ->
  (predict models user_in h).2 = Err e -> error_source models user_in (hp_objs h) e.
Proof.
  intros Hreg Hne Hkeys. apply has_all_keys_true in Hkeys.
  pose proof (predict_refines models user_in h Hreg) as Href.
  destruct (predict models user_in h) as [h' r]. destruct Href as (-> & _). simpl.
  unfold predict_spec. rewrite Hkeys. simpl.
  destruct (mapM _ _) as [ps|e'] eqn:Hps; simpl.
  - assert (Hn : NUM_MODELS models <> 0%nat) by (unfold NUM_MODELS; by destruct models).
    destruct (year_specs_sum _ _ _ _ Hn Hps) as [s ->]. discriminate.
  - intros [= <-]. apply mapM_Err in Hps as (i & Hi & He).
    by eapply year_spec_error.
Qed.

(** C7: [predict] reads nothing of its input but the values of the
    required keys: two inputs that agree on [REQUIRED_KEYS] (whatever
    other keys they have or lack) give the same result and the same
    heap. *)
Theorem predict_frame models user_in user_in' h :
  (forall k, k ∈ REQUIRED_KEYS models -> user_in !! k = user_in' !! k) ->
  predict models user_in h = predict models user_in' h.
Proof.
  intros Hagree. unfold predict. rewrite (has_all_keys_frame models user_in user_in' Hagree).
  destruct (has_all_keys models user_in'); [|done]. cbv [negb mbind st_bind].
  rewrite (st_foldM_ext (sum_step models user_in) (sum_step models user_in')); [done|].
  intros acc i h' _. unfold sum_step. cbv [mbind st_bind].
  by rewrite (predict_year_frame models user_in user_in' Hagree).
Qed.

(** C8: [MODELS[year]] out of range.  [predict_year] raises
    [IndexError] without touching the heap exactly when [year] is not
    below [NUM_MODELS]: in range, every exception it raises is another
    one, or comes after the copy has been allocated. *)
Theorem predict_year_index_error models user_in i h :
  predict_year models user_in i h = (h, Err IndexError) <-> (NUM_MODELS models <= i)%nat.
Proof.
  unfold predict_year, NUM_MODELS.
  cbv [mbind st_bind result_bind st_lift mret st_ret result_ret of_option].
  destruct (models !! i) as [[l fm]|] eqn:Hm.
  2:{ apply lookup_ge_None in Hm. split; [lia | done]. }
  apply lookup_lt_Some in Hm. split; [intros He; exfalso | lia].
  destruct (mapM _ _) as [xs|e] eqn:Hx.
  2:{ injection He as He. apply mapM_Err in Hx as (feat & _ & Hf).
      exact (feature_value_not_index _ _ _ _ Hf He). }
  destruct (mk_dmatrix _ _) as [dm|e] eqn:Hd.
  2:{ injection He as He. exact (mk_dmatrix_not_index _ _ _ Hd He). }
  cbn [fst snd] in He. unfold call_copy, call_predict, heap_load in He.
  cbv [mbind st_bind st_lift of_option] in He.
  destruct (hp_objs h !! l) as [b|]; [|discriminate].
  cbn [heap_alloc hp_objs fst snd] in He. rewrite lookup_insert_eq in He.
  destruct (booster_predict (booster_copy b) dm) as [b' r].
  apply (f_equal (fun p => hp_next p.1)) in He.
  destruct r; cbn in He; lia.
Qed.

End PredictTheorems.

(** ** Concrete runs

    Three tree boosters with one constant leaf each, loaded into an empty
    heap, and an input answering every field of the program with the
    string ["3"]. *)
Definition const_booster (c : f32) : gbtree :=
  {| gb_base := f32_of_Z 0; gb_trees := [Leaf c]; gb_feature_names := None |}.

Definition empty_heap : heap gbtree := {| hp_next := 1; hp_objs := ∅ |}.

Definition demo_heap (c2015 c2016 c2017 : f32) : heap gbtree :=
  (load_models (const_booster c2015) (const_booster c2016) (const_booster c2017) empty_heap).1.

Definition demo_models : registry := MODELS 1 2 3.

Definition demo_input : gmap string pyvalue :=
  list_to_map (map (fun k => (k, VStr "3")) program_fields).

(** [float32] tenths: [k / 10] rounded to binary32. *)
Definition f32_tenth (k : Z) : f32 := f32_div (f32_of_Z k) (f32_of_Z 10).

Lemma demo_registry_wf c2015 c2016 c2017 :
  registry_wf demo_models (demo_heap c2015 c2016 c2017).
Proof.
  apply (load_models_registry_wf _ _ _ empty_heap).
  intros l [b Hb]. cbn [hp_objs empty_heap] in Hb. by rewrite lookup_empty in Hb.
Qed.

Lemma demo_has_all_keys :
  forall k, k ∈ REQUIRED_KEYS demo_models -> is_Some (demo_input !! k).
Proof. apply has_all_keys_true. vm_compute. reflexivity. Qed.

(** Witnesses of the theorems with hypotheses, on the concrete runs. *)
Lemma predict_refinement_witness :
  let h := demo_heap (f32_of_Z 2) (f32_of_Z 4) (f32_of_Z 6) in
  (predict demo_models demo_input h).2 = predict_spec demo_models demo_input (hp_objs h).
Proof.
  intros h.
  apply (predict_refinement demo_models demo_input h
           (predict demo_models demo_input h).1 (predict demo_models demo_input h).2);
    [apply demo_registry_wf | apply surjective_pairing].
Defined.

Lemma predict_sentinel_witness :
  (predict demo_models (delete "salary" demo_input)
           (demo_heap (f32_of_Z 2) (f32_of_Z 4) (f32_of_Z 6))).2 = Ok (PyInt (-1)).
Proof.
  apply (predict_sentinel demo_models (delete "salary" demo_input)
           (demo_heap (f32_of_Z 2) (f32_of_Z 4) (f32_of_Z 6)));
    [apply demo_registry_wf|].
  exists "salary". split; [apply (bool_decide_eq_true_1 _); vm_compute; reflexivity|].
  reflexivity.
Defined.

Lemma predict_in_range_witness :
  py_le (PyInt 0) (PyF32 (f32_of_Z 4)) = true /\ py_le (PyF32 (f32_of_Z 4)) (PyInt 10) = true.
Proof.
  apply (predict_in_range demo_models demo_input (demo_heap (f32_of_Z 2) (f32_of_Z 4) (f32_of_Z 6)));
    [apply demo_registry_wf | apply demo_has_all_keys | vm_compute; reflexivity | reflexivity].
Defined.

Lemma predict_deterministic_witness :
  let h := demo_heap (f32_tenth 1) (f32_tenth 1) (f32_tenth 5) in
  (predict demo_models demo_input (predict demo_models demo_input h).1).2 =
  (predict demo_models demo_input h).2.
Proof.
  intros h.
  apply (predict_deterministic demo_models demo_input h
           (predict demo_models demo_input h).1 (predict demo_models demo_input h).2);
    [apply demo_registry_wf | apply surjective_pairing].
Defined.

Lemma predict_coercion_error_witness :
  exists e, (predict demo_models (<["salary" := VStr "abc"]> demo_input)
                     (demo_heap (f32_of_Z 2) (f32_of_Z 4) (f32_of_Z 6))).2 = Err e.
Proof.
  apply (predict_coercion_error demo_models (<["salary" := VStr "abc"]> demo_input)
           (demo_heap (f32_of_Z 2) (f32_of_Z 4) (f32_of_Z 6)) "salary" (VStr "abc")
           (ValueError "could not convert string to float")).
  - apply demo_registry_wf.
  - apply Forall_forall. intros m Hm.
    repeat (apply elem_of_cons in Hm as [->|Hm];
            [apply (bool_decide_eq_true_1 (NoDup _)); vm_compute; reflexivity|]).
    by apply elem_of_nil in Hm.
  - apply has_all_keys_true. vm_compute. reflexivity.
  - apply (bool_decide_eq_true_1 _). vm_compute. reflexivity.
  - apply lookup_insert_eq.
  - vm_compute. reflexivity.
Defined.

Lemma predict_error_source_witness :
  let h := demo_heap (f32_of_Z 2) (f32_of_Z 4) (f32_of_Z 6) in
  error_source demo_models (<["salary" := VStr "abc"]> demo_input) (hp_objs h)
               (ValueError "could not convert string to float").
Proof.
  intros h.
  apply (predict_error_source demo_models (<["salary" := VStr "abc"]> demo_input) h).
  - apply demo_registry_wf.
  - discriminate.
  - apply has_all_keys_true. vm_compute. reflexivity.
  - vm_compute. reflexivity.
Defined.

(** An extra answer ["age"], which no table reads, changes nothing. *)
Lemma predict_frame_witness :
  let h := demo_heap (f32_of_Z 2) (f32_of_Z 4) (f32_of_Z 6) in
  predict demo_models demo_input h = predict demo_models (<["age" := VStr "abc"]> demo_input) h.
Proof.
  intros h. apply predict_frame. intros k Hk.
  rewrite lookup_insert_ne; [done|]. intros <-.
  assert (Hn : bool_decide ("age" ∈ REQUIRED_KEYS demo_models) = false) by (vm_compute; reflexivity).
  rewrite bool_decide_eq_true_2 in Hn by exact Hk. discriminate.
Defined.

(** [MODELS[3]] of the three-model registry. *)
Lemma predict_year_index_error_witness :
  let h := demo_heap (f32_of_Z 2) (f32_of_Z 4) (f32_of_Z 6) in
  predict_year demo_models demo_input 3 h = (h, Err IndexError).
Proof. intros h. apply predict_year_index_error. vm_compute. lia. Defined.
